(** * react-lazy-image: the lazy-loading [Image] component

    A shallow embedding of [src/source/index.js] and
    [src/source/read-blob-file.js].

    - Pixel quantities ([getBoundingClientRect], the window size, the
      [offset] prop) and the [minLoaded] prop are rationals; byte counts
      of progress events are naturals; the HTTP status is an integer.
    - The quotient computed by the [amountLoaded] getter is a JavaScript
      number: a finite rational, [Infinity] (x / 0 with x > 0) or [NaN]
      (0 / 0).
    - Methods of the component are state transformers on the instance
      fields that also list, in order, the calls they make to their
      collaborators (the props callbacks, the XMLHttpRequest, the window,
      the FileReader).
    - The XMLHttpRequest, the scroll events and the FileReader are the
      environment: [step] delivers one environment event to the instance. *)

From Stdlib Require Import ZArith NArith QArith Lia Lqa Bool List.
From stdpp Require Import base strings list gmap.
Import ListNotations.

Local Open Scope Q_scope.

(** ** Numbers *)

(** [a < b] on finite numbers, as a boolean. *)
Definition Qlt_bool (a b : Q) : bool := negb (Qle_bool b a).

(** The value of a JavaScript division of two non-negative numbers. *)
Inductive JsNumber : Type :=
| Finite (q : Q)
| Infinity
| NaN.

(** [isNaN(x)] *)
Definition isNaN (x : JsNumber) : bool :=
  match x with NaN => true | _ => false end.

(** [x < m] for a finite [m]: false when [x] is [Infinity] or [NaN]. *)
Definition js_lt (x : JsNumber) (m : Q) : bool :=
  match x with
  | Finite q => Qlt_bool q m
  | Infinity | NaN => false
  end.

(** [a || b] on numbers: [b] when [a] is falsy, that is zero. *)
Definition js_or (a b : Q) : Q := if Qeq_bool a 0 then b else a.

(** ** Geometry *)

(** [RectType] *)
Record RectType : Type := {
  bottom : Q;
  height : Q;
  left : Q;
  right : Q;
  top : Q;
  width : Q;
}.

(** What the getter [isInViewport] reads from the page:
    [this.element.getBoundingClientRect()], [window.innerHeight],
    [window.innerWidth] and the [documentElement] client size. *)
Record Page : Type := {
  boundingClientRect : RectType;
  innerHeight : Q;
  innerWidth : Q;
  clientHeight : Q;
  clientWidth : Q;
}.

Definition viewportHeight (page : Page) : Q :=
  js_or (innerHeight page) (clientHeight page).

Definition viewportWidth (page : Page) : Q :=
  js_or (innerWidth page) (clientWidth page).

(** [get isInViewport()], with [this.props.offset] as first argument. *)
Definition isInViewport (offset : Q) (page : Page) : bool :=
  let rect := boundingClientRect page in
  Qle_bool (0 - offset) (bottom rect) &&
  Qle_bool (0 - offset) (right rect) &&
  Qlt_bool (top rect) (viewportHeight page + offset) &&
  Qlt_bool (left rect) (viewportWidth page + offset).

(** The scenario mirrored in both axes: the viewport [0, w] x [0, h] is
    mapped onto itself and the rectangle's edges swap roles. *)
Definition reflectRect (w h : Q) (r : RectType) : RectType :=
  {| bottom := h - top r;
     height := height r;
     left := w - right r;
     right := w - left r;
     top := h - bottom r;
     width := width r |}.

Definition reflect (page : Page) : Page :=
  {| boundingClientRect :=
       reflectRect (viewportWidth page) (viewportHeight page)
         (boundingClientRect page);
     innerHeight := innerHeight page;
     innerWidth := innerWidth page;
     clientHeight := clientHeight page;
     clientWidth := clientWidth page |}.

(** No edge of the rectangle lies on the boundary of the expanded viewport. *)
Definition offBoundary (offset : Q) (page : Page) : Prop :=
  let rect := boundingClientRect page in
  ~ bottom rect == 0 - offset /\
  ~ right rect == 0 - offset /\
  ~ top rect == viewportHeight page + offset /\
  ~ left rect == viewportWidth page + offset.

Definition mkRect (t l b r : Q) : RectType :=
  {| bottom := b; height := b - t; left := l; right := r; top := t;
     width := r - l |}.

Definition mkPage (rect : RectType) (w h : Q) : Page :=
  {| boundingClientRect := rect; innerHeight := h; innerWidth := w;
     clientHeight := h; clientWidth := w |}.

(** ** Data model *)

(** The bytes counted by [this.progress]. *)
Record Progress : Type := {
  loaded : N;
  total : N;
}.

(** The fields of a transport progress event that the handlers read. *)
Record ProgressEvent : Type := {
  lengthComputable : bool;
  evLoaded : N;
  evTotal : N;
}.

(** The part of [this.request] that the component and the transport
    share: the status and body of the last response, and whether a
    transfer is in flight (sent and not yet ended). *)
Record XMLHttpRequest : Type := {
  status : Z;
  response : list Byte.byte;
  inFlight : bool;
}.

(** [new Blob([response], { type })] *)
Record Blob : Type := {
  blobParts : list Byte.byte;
  blobType : string;
}.

(** The [FileReader] of [readBlobFile] when its [loadend] fires. *)
Record FileReader : Type := {
  file : Blob;
  readerError : option string;
  readerResult : string;
}.

(** The [error] handed to [onError]: [new Error(event.response)] from
    the transport, or the reader's error from the conversion. *)
Inductive Error : Type :=
| NewError (message : string)
| ReaderError (name : string).

(** One call of a props callback. *)
Inductive CallbackEvent : Type :=
| onLayout
| onError (error : Error)
| onLoad
| onLoadEnd
| onLoadStart
| onAbort
| onProgress.

(** The props the component reads itself, after [defaultProps]. *)
Record PropType : Type := {
  offset : Q;
  source : string;
  defaultSource : string;
  type : string;
  minLoaded : Q;
}.

(** [defaultProps]; the spinner of [./spinner.js] is a parameter. *)
Definition defaultProps (spinner src : string) : PropType :=
  {| offset := 0; source := src; defaultSource := spinner; type := "*";
     minLoaded := 50 |}.

(** The instance: [this.state.image], [this.isRequesting],
    [this.progress] and [this.request]. *)
Record Image : Type := {
  image : string;
  isRequesting : bool;
  progress : Progress;
  request : XMLHttpRequest;
}.

(** What a method asks of its collaborators. *)
Inductive Effect : Type :=
| Call (c : CallbackEvent)
| XhrOpen (method url : string)
| XhrSend
| XhrAbort
| AddScrollListener
| RemoveScrollListener
| ReadBlobFile (blob : Blob).

(** The events of the transport, as [fetch] wires them. *)
Inductive XhrEvent : Type :=
| loadstart (event : ProgressEvent)
| progressEvent (event : ProgressEvent)
| load
| loadend
| abort
| error (eventResponse : string).

(** ** Methods as state transformers *)

Definition Action : Type := Image -> Image * list Effect.

Definition skip : Action := fun this => (this, []).

Definition andThen (a b : Action) : Action := fun this =>
  let '(this1, e1) := a this in
  let '(this2, e2) := b this1 in
  (this2, e1 ++ e2).

Definition emit (e : Effect) : Action := fun this => (this, [e]).

Definition modify (f : Image -> Image) : Action := fun this => (f this, []).

Definition withThis (k : Image -> Action) : Action := fun this => k this this.

Declare Scope action_scope.
Delimit Scope action_scope with action.
Bind Scope action_scope with Action.
Notation "a ;; b" := (andThen a%action b%action)
  (at level 100, b at level 200, right associativity) : action_scope.
Local Open Scope action_scope.

Definition set_image (v : string) (this : Image) : Image :=
  {| image := v; isRequesting := isRequesting this;
     progress := progress this; request := request this |}.

Definition set_isRequesting (v : bool) (this : Image) : Image :=
  {| image := image this; isRequesting := v;
     progress := progress this; request := request this |}.

Definition set_progress (v : Progress) (this : Image) : Image :=
  {| image := image this; isRequesting := isRequesting this;
     progress := v; request := request this |}.

Definition set_request (v : XMLHttpRequest) (this : Image) : Image :=
  {| image := image this; isRequesting := isRequesting this;
     progress := progress this; request := v |}.

Definition set_loaded (v : N) (this : Image) : Image :=
  set_progress {| loaded := v; total := total (progress this) |} this.

Definition set_total (v : N) (this : Image) : Image :=
  set_progress {| loaded := loaded (progress this); total := v |} this.

(** [new XMLHttpRequest()] *)
Definition newRequest : XMLHttpRequest :=
  {| status := 0; response := []; inFlight := false |}.

(** [get amountLoaded()]: [(loaded * 100) / total]. *)
Definition amountLoaded (this : Image) : JsNumber :=
  let dividend := (loaded (progress this) * 100)%N in
  let divisor := total (progress this) in
  if (divisor =? 0)%N then
    if (dividend =? 0)%N then NaN else Infinity
  else Finite (inject_Z (Z.of_N dividend) / inject_Z (Z.of_N divisor)).

(** [readBlobFile]'s [onReadEnd]: reject with the reader's error or
    resolve with its result. *)
Definition onReadEnd (reader : FileReader) : Error + string :=
  match readerError reader with
  | Some e => inl (ReaderError e)
  | None => inr (readerResult reader)
  end.

Section Component.

Variable props : PropType.

(** The instance after the constructor and the field initialisers. *)
Definition constructed : Image :=
  {| image := defaultSource props;
     isRequesting := false;
     progress := {| loaded := 0; total := 1 |};
     request := newRequest |}.

Definition componentDidUpdate : Action := emit (Call onLayout).

(** [fetch]: wires the six handlers (see [handlerOf]), opens and sends. *)
Definition fetch : Action :=
  emit (XhrOpen "GET" (source props)) ;;
  emit XhrSend.

Definition handleLoadStart (event : ProgressEvent) : Action :=
  modify (set_isRequesting true) ;;
  (if lengthComputable event
   then modify (set_loaded 0) ;; modify (set_total (evTotal event))
   else skip) ;;
  emit (Call onLoadStart).

Definition handleProgress (event : ProgressEvent) : Action :=
  (if lengthComputable event
   then modify (set_loaded (evLoaded event))
   else skip) ;;
  emit (Call onProgress).

Definition handleLoad : Action :=
  modify (set_isRequesting false) ;;
  emit (Call onLoad).

(** [this.setState({ image }, callback)] of a [PureComponent]: the
    component re-renders, and [componentDidUpdate] runs, only when the
    state differs; the callback runs in both cases. *)
Definition setState (v : string) (callback : Action) : Action :=
  withThis (fun this =>
    modify (set_image v) ;;
    (if String.eqb v (image this) then skip else componentDidUpdate) ;;
    callback).

(** The [then] branch of [handleLoadEnd]. *)
Definition handleLoadEnd_then (v : string) : Action :=
  setState v
    (emit RemoveScrollListener ;;
     modify (set_isRequesting false) ;;
     emit (Call onLoadEnd)).

(** The [catch] branch of [handleLoadEnd]. *)
Definition handleLoadEnd_catch (e : Error) : Action :=
  modify (set_isRequesting false) ;;
  emit (Call (onError e)).

(** [new Blob([this.request.response], { type: `image/${this.props.type}` })] *)
Definition blobOf (body : list Byte.byte) : Blob :=
  {| blobParts := body; blobType := "image/" ++ type props |}.

Definition handleLoadEnd : Action :=
  withThis (fun this =>
    if (200 <=? status (request this))%Z && (status (request this) <? 300)%Z
    then emit (ReadBlobFile (blobOf (response (request this))))
    else skip).

(** The promise of [readBlobFile] settles. *)
Definition settle (reader : FileReader) : Action :=
  match onReadEnd reader with
  | inr v => handleLoadEnd_then v
  | inl e => handleLoadEnd_catch e
  end.

(** The promise settles after the component was unmounted: React drops
    [setState] and its callback, so the [then] branch does nothing; the
    [catch] branch runs as usual. *)
Definition settleUnmounted (reader : FileReader) : Action :=
  match onReadEnd reader with
  | inr _ => skip
  | inl e => handleLoadEnd_catch e
  end.

Definition handleError (eventResponse : string) : Action :=
  modify (set_isRequesting false) ;;
  emit (Call (onError (NewError eventResponse))).

Definition handleAbort : Action :=
  modify (set_isRequesting false) ;;
  emit (Call onAbort).

Definition checkViewport (page : Page) : Action :=
  withThis (fun this =>
    if isInViewport (offset props) page && negb (isRequesting this)
    then fetch
    else if negb (isInViewport (offset props) page) && isRequesting this
    then
      if js_lt (amountLoaded this) (minLoaded props)
         || isNaN (amountLoaded this)
      then emit XhrAbort
      else skip
    else skip).

Definition componentDidMount (page : Page) : Action :=
  emit (Call onLayout) ;;
  modify (set_request newRequest) ;;
  emit AddScrollListener ;;
  checkViewport page.

Definition componentWillUnmount : Action :=
  emit RemoveScrollListener ;;
  emit XhrAbort.

(** The handler [fetch] assigns to each event of the request. *)
Definition handlerOf (e : XhrEvent) : Action :=
  match e with
  | loadstart event => handleLoadStart event
  | progressEvent event => handleProgress event
  | load => handleLoad
  | loadend => handleLoadEnd
  | abort => handleAbort
  | error eventResponse => handleError eventResponse
  end.

End Component.

(** ** The environment

    The transport follows the XMLHttpRequest standard: [send] fires
    [loadstart] before it returns; a transfer in flight ends with [load]
    and [loadend] when a response arrived (whatever its status), with
    [error] and [loadend] on a network error, and with [abort] and
    [loadend] when [abort] is called; after an error or an abort the
    status reads 0. The reader of [readBlobFile] ends some time after
    [handleLoadEnd] returned, so other events can come first. *)

Inductive Phase : Type := Constructed | Mounted | Unmounted.

(** The instance together with what its collaborators hold: whether
    [checkViewport] is registered for [scroll], the blobs whose
    [FileReader] has not ended yet, and the props callbacks called so
    far, oldest first. *)
Record World : Type := {
  phase : Phase;
  instance : Image;
  scrollListener : bool;
  readers : list Blob;
  emitted : list CallbackEvent;
}.

Definition with_phase (v : Phase) (w : World) : World :=
  {| phase := v; instance := instance w;
     scrollListener := scrollListener w; readers := readers w;
     emitted := emitted w |}.

Definition with_instance (v : Image) (w : World) : World :=
  {| phase := phase w; instance := v;
     scrollListener := scrollListener w; readers := readers w;
     emitted := emitted w |}.

Definition with_scrollListener (v : bool) (w : World) : World :=
  {| phase := phase w; instance := instance w;
     scrollListener := v; readers := readers w;
     emitted := emitted w |}.

Definition with_readers (v : list Blob) (w : World) : World :=
  {| phase := phase w; instance := instance w;
     scrollListener := scrollListener w; readers := v;
     emitted := emitted w |}.

Definition with_emitted (v : list CallbackEvent) (w : World) : World :=
  {| phase := phase w; instance := instance w;
     scrollListener := scrollListener w; readers := readers w;
     emitted := v |}.

Definition with_request (v : XMLHttpRequest) (w : World) : World :=
  with_instance (set_request v (instance w)) w.

(** The progress event of a transfer whose length is not known (yet):
    nothing loaded, length not computable. *)
Definition noLength : ProgressEvent :=
  {| lengthComputable := false; evLoaded := 0; evTotal := 0 |}.

(** The request after [open]: any ongoing transfer is dropped silently
    and the previous response is forgotten. *)
Definition opened : XMLHttpRequest :=
  {| status := 0; response := []; inFlight := false |}.

(** The request after [send]. *)
Definition sent : XMLHttpRequest :=
  {| status := 0; response := []; inFlight := true |}.

(** The request when the transfer completed with a response. *)
Definition done (st : Z) (body : list Byte.byte) : XMLHttpRequest :=
  {| status := st; response := body; inFlight := false |}.

(** The request after a network error or an abort: status 0, no body. *)
Definition networkError : XMLHttpRequest :=
  {| status := 0; response := []; inFlight := false |}.

(** The effects a handler may have on the collaborators other than the
    transport. *)
Definition absorb (w : World) (e : Effect) : World :=
  match e with
  | Call c => with_emitted (emitted w ++ [c]) w
  | AddScrollListener => with_scrollListener true w
  | RemoveScrollListener => with_scrollListener false w
  | ReadBlobFile blob => with_readers (readers w ++ [blob]) w
  | XhrOpen _ _ | XhrSend | XhrAbort => w
  end.

Section Environment.

Variable props : PropType.

(** A handler runs: the instance is updated and the collaborators see
    its calls in order. *)
Definition handle (a : Action) (w : World) : World :=
  let '(this, effects) := a (instance w) in
  foldl absorb (with_instance this w) effects.

(** The transport fires an event: the handler wired to it runs. *)
Definition deliver (e : XhrEvent) (w : World) : World :=
  handle (handlerOf props e) w.

(** The transfer completes with a response: [load], then [loadend]. *)
Definition complete (st : Z) (body : list Byte.byte) (w : World) : World :=
  deliver loadend (deliver load (with_request (done st body) w)).

(** The transfer fails: [error], then [loadend]. *)
Definition fail (eventResponse : string) (w : World) : World :=
  deliver loadend (deliver (error eventResponse) (with_request networkError w)).

(** One effect of a method called by React or the window. [send] fires
    [loadstart] at once, with the event [ls]; [abort] fires [abort] and
    [loadend] at once when a transfer is in flight. *)
Definition perform (ls : ProgressEvent) (w : World) (e : Effect) : World :=
  match e with
  | XhrOpen _ _ => with_request opened w
  | XhrSend => deliver (loadstart ls) (with_request sent w)
  | XhrAbort =>
      if inFlight (request (instance w))
      then deliver loadend (deliver abort (with_request networkError w))
      else with_request networkError w
  | _ => absorb w e
  end.

Definition invoke (ls : ProgressEvent) (a : Action) (w : World) : World :=
  let '(this, effects) := a (instance w) in
  foldl (perform ls) (with_instance this w) effects.

(** The reader of the [k]-th pending blob ends. *)
Definition readEnd (k : nat) (err : option string) (result : string)
    (w : World) : World :=
  match readers w !! k with
  | Some blob =>
      handle
        (settle {| file := blob; readerError := err; readerResult := result |})
        (with_readers (delete k (readers w)) w)
  | None => w
  end.

(** The reader of the [k]-th pending blob ends after the component was
    unmounted. *)
Definition readEndUnmounted (k : nat) (err : option string) (result : string)
    (w : World) : World :=
  match readers w !! k with
  | Some blob =>
      handle
        (settleUnmounted
           {| file := blob; readerError := err; readerResult := result |})
        (with_readers (delete k (readers w)) w)
  | None => w
  end.

(** [componentWillUnmount] runs and the component is gone. *)
Definition unmount (w : World) : World :=
  with_phase Unmounted (invoke noLength componentWillUnmount w).

(** What the environment can do to a component. *)
Inductive Input : Type :=
| Mount (page : Page) (ls : ProgressEvent)
| Scroll (page : Page) (ls : ProgressEvent)
| Progressed (event : ProgressEvent)
| Completed (st : Z) (body : list Byte.byte)
| Failed (eventResponse : string)
| ReadEnd (k : nat) (err : option string) (result : string)
| Unmount.

(** One input, when the environment can produce it: transport events
    need a transfer in flight, a reader must be pending to end, and the
    component is mounted once. A reader that is still pending when the
    component is unmounted ends afterwards. *)
Definition step (w : World) (i : Input) : option World :=
  match phase w, i with
  | Constructed, Mount page ls =>
      Some (invoke ls (componentDidMount props page) (with_phase Mounted w))
  | Mounted, Scroll page ls =>
      Some (if scrollListener w
            then invoke ls (checkViewport props page) w
            else w)
  | Mounted, Progressed event =>
      if inFlight (request (instance w))
      then Some (deliver (progressEvent event) w)
      else None
  | Mounted, Completed st body =>
      if inFlight (request (instance w))
      then Some (complete st body w)
      else None
  | Mounted, Failed eventResponse =>
      if inFlight (request (instance w))
      then Some (fail eventResponse w)
      else None
  | Mounted, ReadEnd k err result =>
      match readers w !! k with
      | Some _ => Some (readEnd k err result w)
      | None => None
      end
  | Mounted, Unmount => Some (unmount w)
  | Unmounted, ReadEnd k err result =>
      match readers w !! k with
      | Some _ => Some (readEndUnmounted k err result w)
      | None => None
      end
  | _, _ => None
  end.

Fixpoint run (w : World) (inputs : list Input) : option World :=
  match inputs with
  | [] => Some w
  | i :: rest =>
      match step w i with
      | Some w' => run w' rest
      | None => None
      end
  end.

(** The world of a freshly constructed component. *)
Definition start : World :=
  {| phase := Constructed; instance := constructed props;
     scrollListener := false; readers := []; emitted := [] |}.

End Environment.

(** ** One transfer, from [send] to its end *)

(** How a transfer ends: it completes with a response (and, when a
    conversion is started, the reader ends with [err] and [result]), the
    transport reports an error, or the request is aborted. *)
Inductive Ending : Type :=
| Loads (st : Z) (body : list Byte.byte) (err : option string) (result : string)
| Errors (eventResponse : string)
| Aborts.

(** The events of one transfer in the order the XMLHttpRequest fires
    them: [loadstart], any number of [progress] events, then [load] and
    [loadend], or [error] and [loadend], or [abort] and [loadend]; the
    reader started by this transfer's [loadend] ends last. *)
Definition progressed (props : PropType) (ps : list ProgressEvent)
    (w : World) : World :=
  foldl (fun w p => deliver props (progressEvent p) w) w ps.

Definition lifecycle (props : PropType) (ls : ProgressEvent)
    (ps : list ProgressEvent) (e : Ending) (w : World) : World :=
  let w1 := perform props ls w XhrSend in
  let w2 := progressed props ps w1 in
  match e with
  | Loads st body err result =>
      readEnd (length (readers w)) err result (complete props st body w2)
  | Errors eventResponse => fail props eventResponse w2
  | Aborts => perform props ls w2 XhrAbort
  end.

(** The same events when the component is unmounted after the response
    arrived and before the reader ends. *)
Definition lifecycleUnmounted (props : PropType) (ls : ProgressEvent)
    (ps : list ProgressEvent) (st : Z) (body : list Byte.byte)
    (err : option string) (result : string) (w : World) : World :=
  let w1 := perform props ls w XhrSend in
  let w2 := progressed props ps w1 in
  readEndUnmounted (length (readers w)) err result
    (unmount props (complete props st body w2)).

(** The events of a transfer that a later [open] drops: [loadstart] and
    [progress] events, and no event after [open]. *)
Definition lifecycleSuperseded (props : PropType) (ls : ProgressEvent)
    (ps : list ProgressEvent) (w : World) : World :=
  let w1 := perform props ls w XhrSend in
  let w2 := progressed props ps w1 in
  perform props ls w2 (XhrOpen "GET" (source props)).

(** The callbacks called from world [w] on. *)
Definition emittedSince (w w' : World) : list CallbackEvent :=
  drop (length (emitted w)) (emitted w').

(** [onError], [onAbort] and [onLoadEnd] report how a transfer ended. *)
Definition terminal (c : CallbackEvent) : bool :=
  match c with
  | onError _ | onAbort | onLoadEnd => true
  | _ => false
  end.

Definition isOnLoad (c : CallbackEvent) : bool :=
  match c with onLoad => true | _ => false end.

Definition isOnError (c : CallbackEvent) : bool :=
  match c with onError _ => true | _ => false end.

Definition count (f : CallbackEvent -> bool) (l : list CallbackEvent) : nat :=
  length (List.filter f l).

(** The callbacks after the first terminal one. *)
Fixpoint afterTerminal (l : list CallbackEvent) : list CallbackEvent :=
  match l with
  | [] => []
  | c :: rest => if terminal c then rest else afterTerminal rest
  end.

(** The callbacks before the first terminal one. *)
Fixpoint beforeTerminal (l : list CallbackEvent) : list CallbackEvent :=
  match l with
  | [] => []
  | c :: rest => if terminal c then [] else c :: beforeTerminal rest
  end.

(** Exactly one terminal callback, followed by exactly one [onLoad]. *)
Definition oneTerminalThenOnLoad (l : list CallbackEvent) : bool :=
  (count terminal l =? 1)%nat && (count isOnLoad (afterTerminal l) =? 1)%nat.

Definition successful (st : Z) : bool := (200 <=? st)%Z && (st <? 300)%Z.

(** The callbacks that follow the [progress] events of a transfer, for
    an instance that displayed [shown] when the transfer began. *)
Definition endingCallbacks (shown : string) (e : Ending) : list CallbackEvent :=
  match e with
  | Loads st _ err result =>
      onLoad ::
      (if successful st
       then match err with
            | Some name => [onError (ReaderError name)]
            | None =>
                (if String.eqb result shown then [] else [onLayout])
                ++ [onLoadEnd]
            end
       else [])
  | Errors eventResponse => [onError (NewError eventResponse)]
  | Aborts => [onAbort]
  end.

(** The callbacks that follow the [progress] events of a transfer whose
    response arrived and whose component was unmounted before the reader
    ended. *)
Definition unmountedCallbacks (st : Z) (err : option string)
    : list CallbackEvent :=
  onLoad ::
  (if successful st
   then match err with
        | Some name => [onError (ReaderError name)]
        | None => []
        end
   else []).

(** ** Reachable worlds *)

(** [img] is what a reader returned for the blob of a response that a
    completed transfer of the trace delivered with a 2xx status. *)
Definition convertedFrom (props : PropType) (tr : list Input) (img : string)
    : Prop :=
  exists st body k tr1 tr2 w1,
    successful st = true /\
    Completed st body ∈ tr1 /\
    tr = tr1 ++ ReadEnd k None img :: tr2 /\
    run props (start props) tr1 = Some w1 /\
    readers w1 !! k = Some (blobOf props body).

(** [isRequesting] is set only while a transfer is in flight, and never
    before the component is mounted. *)
Definition requestingInv (w : World) : Prop :=
  (phase w = Constructed -> isRequesting (instance w) = false) /\
  (isRequesting (instance w) = true -> inFlight (request (instance w)) = true).

(** ** Rendering *)

(** The values of props. *)
Inductive JsValue : Type :=
| undefined
| JsString (s : string)
| JsNum (n : Z)
| JsFunction (name : string).

#[export] Instance JsValue_inhabited : Inhabited JsValue := populate undefined.

(** [ownProps] *)
Definition ownProps : list string :=
  [ "onLayout"; "onError"; "onLoad"; "onLoadEnd"; "onLoadStart"; "onAbort";
    "onProgress"; "resizeMode"; "source"; "defaultSource"; "offset";
    "minLoaded" ].

(** [Array.prototype.indexOf]: the first index of [x], or -1. *)
Fixpoint indexOf (l : list string) (x : string) : Z :=
  match l with
  | [] => -1
  | y :: rest =>
      if String.eqb y x then 0
      else let i := indexOf rest x in if (i =? -1)%Z then -1 else (i + 1)%Z
  end.

(** [Object.keys] *)
Definition keys (o : gmap string JsValue) : list string := (map_to_list o).*1.

(** [get imgProps()]: the keys that are not own props, each copied with
    its value into a new object. *)
Definition imgProps (props : gmap string JsValue) : gmap string JsValue :=
  foldl (fun acc propName => <[propName := props !!! propName]> acc) ∅
    (filter (fun propName => indexOf ownProps propName = (-1)%Z) (keys props)).

(** A rendered element: its tag and its props ([ref] is not a prop). *)
Record Element : Type := {
  tag : string;
  attributes : gmap string JsValue;
}.

(** [render]: [<img {...this.imgProps} ref={this.setRef} src={this.state.image} />] *)
Definition render (props : gmap string JsValue) (this : Image) : Element :=
  {| tag := "img";
     attributes := <["src" := JsString (image this)]> (imgProps props) |}.

(** [send] and [abort] among the calls of a method. *)
Definition isSend (e : Effect) : bool :=
  match e with XhrSend => true | _ => false end.

Definition isAbort (e : Effect) : bool :=
  match e with XhrAbort => true | _ => false end.

(** ** Sample values *)

Module Sample.

Definition props : PropType := defaultProps "spinner" "/kitten.png".

(** A 10 x 10 element at the top left corner of an 800 x 600 window. *)
Definition visible : Page := mkPage (mkRect 0 0 10 10) 800 600.

(** The same element 5000 pixels further down. *)
Definition hidden : Page := mkPage (mkRect 5000 0 5010 10) 800 600.

(** The element just below the bottom edge of the window. *)
Definition touching : Page := mkPage (mkRect 600 0 610 10) 800 600.

Definition known (l t : N) : ProgressEvent :=
  {| lengthComputable := true; evLoaded := l; evTotal := t |}.

(** An instance that is requesting and whose progress is 0 of 0. *)
Definition requestingNothingOfNothing : Image :=
  {| image := "spinner"; isRequesting := true;
     progress := {| loaded := 0; total := 0 |}; request := sent |}.

(** The component mounted while its element is out of view. *)
Definition mounted : World :=
  invoke props noLength (componentDidMount props hidden)
    (with_phase Mounted (start props)).

(** Mounted in view, then the transfer completes with a 404. *)
Definition notFound : list Input :=
  [Mount visible noLength; Completed 404 []].

(** A transfer with progress completes with a 404. *)
Definition endedNotFound : list Input :=
  [Mount visible noLength; Progressed (known 30 100); Completed 404 []].

(** Mounted in view, then the transfer completes with a 200. *)
Definition received : list Input :=
  [Mount visible noLength; Completed 200 []].

(** The transfer completes; a scroll event arrives while the reader is
    still at work; then the reader ends. *)
Definition scrolledWhileReading : list Input :=
  [Mount visible noLength; Completed 200 []; Scroll visible noLength;
   ReadEnd 0 None "data:image/*;base64,"].

End Sample.

(** ** Vocabulary for the further properties *)

Definition isOnLoadStart (c : CallbackEvent) : bool :=
  match c with onLoadStart => true | _ => false end.

(** A call of [open], [send] or [abort] on the request. *)
Definition isTransportCall (e : Effect) : bool :=
  match e with
  | XhrOpen _ _ | XhrSend | XhrAbort => true
  | _ => false
  end.

(** The [loadstart] event an input brings along, if any, has no
    computable length (the XMLHttpRequest standard fires [loadstart] with
    0 loaded of 0). *)
Definition plainStart (i : Input) : bool :=
  match i with
  | Mount _ ls | Scroll _ ls => negb (lengthComputable ls)
  | _ => true
  end.

(** The transfer ends without a new image: transport error, abort, a
    response outside 200..299, or a reader that ends with an error. *)
Definition endsWithoutImage (e : Ending) : bool :=
  match e with
  | Loads st _ err _ =>
      negb (successful st) || match err with Some _ => true | None => false end
  | Errors _ | Aborts => true
  end.

(** What a world shows of a transfer: the callbacks since [w], the
    [isRequesting] flag, whether a transfer is in flight, the image. *)
Definition observe (w w' : World)
    : list CallbackEvent * bool * bool * string :=
  (emittedSince w w', isRequesting (instance w'),
   inFlight (request (instance w')), image (instance w')).

(** No event that the input brings along has a computable length: the
    total size of the transfer is unknown. *)
Definition lengthUnknown (i : Input) : bool :=
  match i with
  | Mount _ ls | Scroll _ ls => negb (lengthComputable ls)
  | Progressed event => negb (lengthComputable event)
  | _ => true
  end.

Module Scenario.

(** The default props with [minLoaded] set to 0. *)
Definition keepLoading : PropType :=
  {| offset := 0; source := "/kitten.png"; defaultSource := "spinner";
     type := "*"; minLoaded := 0 |}.

(** A progress event of a transfer of unknown length. *)
Definition unknownLength : ProgressEvent :=
  {| lengthComputable := false; evLoaded := 30; evTotal := 0 |}.

(** Mounted in view, a progress event of unknown length, scrolled away. *)
Definition scrolledAway : list Input :=
  [Mount Sample.visible noLength; Progressed unknownLength;
   Scroll Sample.hidden noLength].

(** The same before the scroll event. *)
Definition lengthNeverKnown : list Input :=
  [Mount Sample.visible noLength; Progressed unknownLength].

(** The response arrives, the component is unmounted, the reader ends. *)
Definition unmountedWhileReading : list Input :=
  [Mount Sample.visible noLength; Completed 200 []; Unmount].

(** Mounted in view; 30 bytes reported by a progress event. *)
Definition loading : list Input :=
  [Mount Sample.visible noLength; Progressed (Sample.known 30 100)].

(** An instance that is requesting with 30 of 100 bytes loaded. *)
Definition thirtyOfHundred : Image :=
  {| image := "spinner"; isRequesting := true;
     progress := {| loaded := 30; total := 100 |}; request := sent |}.

(** Props with a few attributes for the [img] and a caller's [src]. *)
Definition attrs : gmap string JsValue :=
  <["alt" := JsString "kitten"]>
    (<["src" := JsString "/other.png"]>
       (<["source" := JsString "/kitten.png"]>
          (<["onLoad" := JsFunction "handler"]> ∅))).

End Scenario.

(** * Properties *)

(** ** Numbers *)

Lemma Qlt_bool_iff (a b : Q) : Qlt_bool a b = true <-> a < b.
Proof.
  unfold Qlt_bool. rewrite negb_true_iff, <- not_true_iff_false, Qle_bool_iff.
  split; [apply Qnot_le_lt | apply Qlt_not_le].
Qed.

Lemma isInViewport_spec (o : Q) (page : Page) :
  isInViewport o page = true <->
  0 - o <= bottom (boundingClientRect page) /\
  0 - o <= right (boundingClientRect page) /\
  top (boundingClientRect page) < viewportHeight page + o /\
  left (boundingClientRect page) < viewportWidth page + o.
Proof.
  unfold isInViewport. cbv zeta.
  rewrite !andb_true_iff, !Qle_bool_iff, !Qlt_bool_iff. tauto.
Qed.

Lemma Qle_neq_lt (a b : Q) : a <= b -> ~ a == b -> a < b.
Proof.
  intros Hle Hne. destruct (Qlt_le_dec a b) as [Hlt | Hge]; [exact Hlt |].
  exfalso. apply Hne. apply Qle_antisym; assumption.
Qed.

Lemma viewportHeight_reflect (page : Page) :
  viewportHeight (reflect page) = viewportHeight page.
Proof. reflexivity. Qed.

Lemma viewportWidth_reflect (page : Page) :
  viewportWidth (reflect page) = viewportWidth page.
Proof. reflexivity. Qed.

(** ** The viewport test *)

Lemma isInViewport_monotone (page : Page) (o o' : Q) :
  o <= o' -> isInViewport o page = true -> isInViewport o' page = true.
Proof.
  intros Hle. rewrite !isInViewport_spec.
  intros (Hb & Hr & Ht & Hl). repeat split; lra.
Qed.

Lemma isInViewport_reflect (page : Page) (o : Q) :
  offBoundary o page ->
  isInViewport o (reflect page) = isInViewport o page.
Proof.
  intros (Nb & Nr & Nt & Nl). apply eq_true_iff_eq.
  rewrite !isInViewport_spec, viewportHeight_reflect, viewportWidth_reflect.
  cbn [reflect reflectRect boundingClientRect bottom right top left].
  set (h := viewportHeight page) in *. set (w := viewportWidth page) in *.
  set (r := boundingClientRect page) in *.
  split; intros (Hb & Hr & Ht & Hl).
  - assert (top r < h + o) by (apply Qle_neq_lt; [lra | exact Nt]).
    assert (left r < w + o) by (apply Qle_neq_lt; [lra | exact Nl]).
    repeat split; lra.
  - assert (0 - o < bottom r).
    { apply Qle_neq_lt; [lra |]. intros E. apply Nb. symmetry. exact E. }
    assert (0 - o < right r).
    { apply Qle_neq_lt; [lra |]. intros E. apply Nr. symmetry. exact E. }
    repeat split; lra.
Qed.

(** C9, as stated, fails: an element whose top edge lies exactly on the
    bottom edge of the window is outside the viewport, while its mirror
    image, whose bottom edge lies on the top edge of the window, is
    inside. *)
Lemma C9_reflection_counterexample :
  isInViewport 0 Sample.touching = false /\
  isInViewport 0 (reflect Sample.touching) = true.
Proof. split; reflexivity. Qed.

(** C9 (amended): [isInViewport] is monotone in the offset, and it is
    invariant under the reflection of the scenario in both axes whenever
    no edge of the rectangle lies on the boundary of the expanded
    viewport. *)
Theorem C9_isInViewport_monotone_reflect (page : Page) (o o' : Q) :
  0 <= o -> o <= o' ->
  (isInViewport o page = true -> isInViewport o' page = true) /\
  (offBoundary o page -> isInViewport o (reflect page) = isInViewport o page).
Proof.
  intros _ Hle. split.
  - apply isInViewport_monotone, Hle.
  - apply isInViewport_reflect.
Qed.

Lemma C9_witness :
  isInViewport 0 Sample.visible = true /\
  isInViewport 5 Sample.visible = true /\
  isInViewport 0 (reflect Sample.visible) = isInViewport 0 Sample.visible.
Proof.
  destruct (C9_isInViewport_monotone_reflect Sample.visible 0 5) as [Hm Hr].
  - discriminate.
  - discriminate.
  - split; [reflexivity |]. split.
    + apply Hm. reflexivity.
    + apply Hr. repeat split; discriminate.
Defined.

(** ** The decision of [checkViewport] *)

(** C1: [checkViewport] leaves the instance as it is; it sends a request
    exactly when the element is in the expanded viewport and no request
    is active; it aborts exactly when the element is outside, a request
    is active, and the loaded percentage is below [minLoaded] or is NaN. *)
Theorem C1_checkViewport_decision (props : PropType) (page : Page) (this : Image) :
  let inside := isInViewport (offset props) page in
  let insufficient :=
    js_lt (amountLoaded this) (minLoaded props) || isNaN (amountLoaded this) in
  fst (checkViewport props page this) = this /\
  existsb isSend (snd (checkViewport props page this))
    = inside && negb (isRequesting this) /\
  existsb isAbort (snd (checkViewport props page this))
    = negb inside && isRequesting this && insufficient /\
  snd (checkViewport props page this)
    = if inside && negb (isRequesting this)
      then [XhrOpen "GET" (source props); XhrSend]
      else if negb inside && isRequesting this && insufficient
      then [XhrAbort]
      else [].
Proof.
  cbv zeta. unfold checkViewport, withThis.
  destruct (isInViewport (offset props) page), (isRequesting this); cbn;
    try (destruct (js_lt _ _ || isNaN _); cbn); repeat split; congruence.
Qed.

(** The loaded percentage is NaN exactly when nothing of nothing is
    loaded; on a fresh instance it is the number 0. *)
Lemma amountLoaded_NaN_iff (this : Image) :
  isNaN (amountLoaded this) = true <->
  loaded (progress this) = 0%N /\ total (progress this) = 0%N.
Proof.
  unfold amountLoaded. cbv zeta.
  destruct (N.eqb_spec (total (progress this)) 0) as [Ht | Ht].
  - destruct (N.eqb_spec (loaded (progress this) * 100) 0) as [Hl | Hl]; cbn.
    + split; [intros _; split; lia | reflexivity].
    + split; [discriminate | intros [Hz _]; lia].
  - cbn. split; [discriminate | intros [_ Hz]; contradiction].
Qed.

Lemma amountLoaded_constructed (props : PropType) :
  amountLoaded (constructed props) = Finite (0 / 1).
Proof. reflexivity. Qed.

(** An instance with a NaN percentage is the one of a component mounted
    in view whose [loadstart] event reported a computable length of 0. *)
Lemma nothingOfNothing_reached :
  option_map instance
    (run Sample.props (start Sample.props)
       [Mount Sample.visible (Sample.known 0 0)])
  = Some Sample.requestingNothingOfNothing.
Proof. reflexivity. Qed.


(** ** The handlers, one event at a time *)

Section Handlers.

Variable props : PropType.

Lemma handleProgress_eq (event : ProgressEvent) (this : Image) :
  handleProgress event this
  = (if lengthComputable event then set_loaded (evLoaded event) this else this,
     [Call onProgress]).
Proof. unfold handleProgress. destruct (lengthComputable event); reflexivity. Qed.

Lemma handleLoadStart_eq (event : ProgressEvent) (this : Image) :
  handleLoadStart event this
  = (if lengthComputable event
     then set_total (evTotal event) (set_loaded 0 (set_isRequesting true this))
     else set_isRequesting true this,
     [Call onLoadStart]).
Proof. unfold handleLoadStart. destruct (lengthComputable event); reflexivity. Qed.

Lemma complete_eq (st : Z) (body : list Byte.byte) (w : World) :
  complete props st body w =
  {| phase := phase w;
     instance := {| image := image (instance w); isRequesting := false;
                    progress := progress (instance w);
                    request := done st body |};
     scrollListener := scrollListener w;
     readers := if successful st
                then readers w ++ [blobOf props body]
                else readers w;
     emitted := emitted w ++ [onLoad] |}.
Proof.
  unfold complete, deliver, handle, handlerOf, handleLoad, handleLoadEnd,
    withThis, successful.
  cbn -[Z.leb Z.ltb blobOf].
  destruct ((200 <=? st)%Z && (st <? 300)%Z); reflexivity.
Qed.

Lemma fail_eq (r : string) (w : World) :
  fail props r w =
  {| phase := phase w;
     instance := {| image := image (instance w); isRequesting := false;
                    progress := progress (instance w);
                    request := networkError |};
     scrollListener := scrollListener w;
     readers := readers w;
     emitted := emitted w ++ [onError (NewError r)] |}.
Proof. reflexivity. Qed.

Lemma send_eq (ls : ProgressEvent) (w : World) :
  perform props ls w XhrSend =
  {| phase := phase w;
     instance := {| image := image (instance w); isRequesting := true;
                    progress := if lengthComputable ls
                                then {| loaded := 0; total := evTotal ls |}
                                else progress (instance w);
                    request := sent |};
     scrollListener := scrollListener w;
     readers := readers w;
     emitted := emitted w ++ [onLoadStart] |}.
Proof.
  unfold perform, deliver, handle, handlerOf, handleLoadStart.
  destruct (lengthComputable ls); reflexivity.
Qed.

Lemma fetch_eq (ls : ProgressEvent) (w : World) :
  invoke props ls (fetch props) w = perform props ls w XhrSend.
Proof.
  rewrite send_eq. unfold invoke. cbn.
  unfold deliver, handle, handlerOf, handleLoadStart.
  destruct (lengthComputable ls); reflexivity.
Qed.

Lemma abort_eq (ls : ProgressEvent) (w : World) :
  perform props ls w XhrAbort =
  if inFlight (request (instance w))
  then {| phase := phase w;
          instance := {| image := image (instance w); isRequesting := false;
                         progress := progress (instance w);
                         request := networkError |};
          scrollListener := scrollListener w;
          readers := readers w;
          emitted := emitted w ++ [onAbort] |}
  else with_request networkError w.
Proof.
  unfold perform. destruct (inFlight (request (instance w))); reflexivity.
Qed.

Lemma progress_eq (p : ProgressEvent) (w : World) :
  deliver props (progressEvent p) w =
  {| phase := phase w;
     instance := {| image := image (instance w);
                    isRequesting := isRequesting (instance w);
                    progress := if lengthComputable p
                                then {| loaded := evLoaded p;
                                        total := total (progress (instance w)) |}
                                else progress (instance w);
                    request := request (instance w) |};
     scrollListener := scrollListener w;
     readers := readers w;
     emitted := emitted w ++ [onProgress] |}.
Proof.
  unfold deliver, handle, handlerOf, handleProgress.
  destruct w as [ph [im rq pr rqst] sl rd em].
  destruct (lengthComputable p); reflexivity.
Qed.

Lemma readEnd_eq (k : nat) (err : option string) (result : string)
    (w : World) (blob : Blob) :
  readers w !! k = Some blob ->
  readEnd k err result w =
  match err with
  | Some name =>
      {| phase := phase w;
         instance := {| image := image (instance w); isRequesting := false;
                        progress := progress (instance w);
                        request := request (instance w) |};
         scrollListener := scrollListener w;
         readers := delete k (readers w);
         emitted := emitted w ++ [onError (ReaderError name)] |}
  | None =>
      {| phase := phase w;
         instance := {| image := result; isRequesting := false;
                        progress := progress (instance w);
                        request := request (instance w) |};
         scrollListener := false;
         readers := delete k (readers w);
         emitted := emitted w
                    ++ (if String.eqb result (image (instance w))
                        then [] else [onLayout]) ++ [onLoadEnd] |}
  end.
Proof.
  intros Hk. unfold readEnd. rewrite Hk.
  unfold handle, settle, onReadEnd. destruct err as [name |]; cbn.
  - reflexivity.
  - unfold handleLoadEnd_then, setState, withThis. cbn.
    destruct (String.eqb result (image (instance w))); cbn.
    + reflexivity.
    + rewrite <- app_assoc. reflexivity.
Qed.

Lemma readEndUnmounted_eq (k : nat) (err : option string) (result : string)
    (w : World) (blob : Blob) :
  readers w !! k = Some blob ->
  readEndUnmounted k err result w =
  match err with
  | Some name =>
      {| phase := phase w;
         instance := {| image := image (instance w); isRequesting := false;
                        progress := progress (instance w);
                        request := request (instance w) |};
         scrollListener := scrollListener w;
         readers := delete k (readers w);
         emitted := emitted w ++ [onError (ReaderError name)] |}
  | None => with_readers (delete k (readers w)) w
  end.
Proof.
  intros Hk. unfold readEndUnmounted. rewrite Hk.
  unfold handle, settleUnmounted, onReadEnd. destruct err; reflexivity.
Qed.

(** Progress events change nothing but [progress] and the callback log. *)
Lemma progressed_frame (ps : list ProgressEvent) : forall w : World,
  phase (progressed props ps w) = phase w /\
  image (instance (progressed props ps w)) = image (instance w) /\
  isRequesting (instance (progressed props ps w)) = isRequesting (instance w) /\
  request (instance (progressed props ps w)) = request (instance w) /\
  scrollListener (progressed props ps w) = scrollListener w /\
  readers (progressed props ps w) = readers w /\
  emitted (progressed props ps w) = emitted w ++ repeat onProgress (length ps).
Proof.
  induction ps as [| p ps IH]; intros w.
  - cbn. rewrite app_nil_r. repeat split.
  - change (progressed props (p :: ps) w)
      with (progressed props ps (deliver props (progressEvent p) w)).
    destruct (IH (deliver props (progressEvent p) w))
      as (H1 & H2 & H3 & H4 & H5 & H6 & H7).
    rewrite H1, H2, H3, H4, H5, H6, H7, progress_eq. cbn.
    rewrite <- app_assoc. repeat split.
Qed.

End Handlers.

(** ** Starting a transfer *)

Lemma emittedSince_app (w w' : World) (l : list CallbackEvent) :
  emitted w' = emitted w ++ l -> emittedSince w w' = l.
Proof. intros H. unfold emittedSince. rewrite H. apply drop_app_length. Qed.

(** C7, as stated, fails. After a transfer that reported 30 loaded bytes
    ended with a 404 no request is active; the transfer started by the
    next scroll event sets [isRequesting] and calls [onLoadStart], but
    [progress] stays at 30 of 1. A [loadstart] event with a computable
    length of 100 sets [progress] to 0 of 100. *)
Lemma C7_counterexample :
  option_map (fun w => (isRequesting (instance w), inFlight (request (instance w))))
    (run Sample.props (start Sample.props) Sample.endedNotFound)
  = Some (false, false) /\
  option_map (fun w => (isRequesting (instance w), progress (instance w), emitted w))
    (run Sample.props (start Sample.props)
       (Sample.endedNotFound ++ [Scroll Sample.visible noLength]))
  = Some (true, {| loaded := 30; total := 1 |},
          [onLayout; onLoadStart; onProgress; onLoad; onLoadStart]) /\
  option_map (fun w => progress (instance w))
    (run Sample.props (start Sample.props)
       [Mount Sample.visible (Sample.known 0 100)])
  = Some {| loaded := 0; total := 100 |}.
Proof. repeat split; reflexivity. Qed.

(** C7 (amended): every start of a transfer ([fetch], whose [send] fires
    [loadstart]) sets [isRequesting], puts a transfer in flight and calls
    [onLoadStart] once; [progress] becomes 0 of [event.total] when the
    [loadstart] event has a computable length and is left as it was
    otherwise. *)
Theorem C7_start_of_transfer (props : PropType) (ls : ProgressEvent) (w : World) :
  let w' := invoke props ls (fetch props) w in
  isRequesting (instance w') = true /\
  inFlight (request (instance w')) = true /\
  emittedSince w w' = [onLoadStart] /\
  progress (instance w')
    = (if lengthComputable ls
       then {| loaded := 0; total := evTotal ls |}
       else progress (instance w)).
Proof.
  cbv zeta. rewrite fetch_eq, send_eq. cbn [instance isRequesting request inFlight sent progress].
  repeat split. apply emittedSince_app. reflexivity.
Qed.

(** ** Progress events *)

(** C8, evaluated on a fresh instance at a progress event that reports
    30 of 100 bytes with a computable length: [loaded] becomes 30, [total]
    stays 1, [onProgress] is called, and nothing else changes. *)
Theorem C8_progress_event_keeps_total :
  handleProgress (Sample.known 30 100) (constructed Sample.props)
  = ({| image := "spinner"; isRequesting := false;
        progress := {| loaded := 30; total := 1 |};
        request := newRequest |},
     [Call onProgress]).
Proof. reflexivity. Qed.

(** ** A response with a status outside 200..299 *)

(** C4, as stated, fails: the component is mounted in view and its
    transfer completes with status 404; the callbacks called are
    [onLayout], [onLoadStart] and [onLoad], and [onError] is not among
    them. *)
Lemma C4_counterexample :
  option_map (fun w => (emitted w, existsb isOnError (emitted w)))
    (run Sample.props (start Sample.props) Sample.notFound)
  = Some ([onLayout; onLoadStart; onLoad], false).
Proof. reflexivity. Qed.

(** C4 (amended): when the transport completes carrying a 404 status,
    [onLoad] is the only callback called (no [onError]), [isRequesting]
    becomes false, no conversion is started and the displayed image is
    unchanged. *)
Theorem C4_completed_404 (props : PropType) (body : list Byte.byte) (w : World) :
  let w' := complete props 404 body w in
  emittedSince w w' = [onLoad] /\
  isRequesting (instance w') = false /\
  readers w' = readers w /\
  image (instance w') = image (instance w).
Proof.
  cbv zeta. rewrite complete_eq. cbn. repeat split.
  apply emittedSince_app. reflexivity.
Qed.

(** ** The callbacks of one transfer *)

Section Lifecycle.

Variable props : PropType.

Lemma lifecycle_emitted (ls : ProgressEvent) (ps : list ProgressEvent)
    (e : Ending) (w : World) :
  emitted (lifecycle props ls ps e w)
  = emitted w ++ onLoadStart :: repeat onProgress (length ps)
      ++ endingCallbacks (image (instance w)) e.
Proof.
  unfold lifecycle. cbv zeta.
  destruct (progressed_frame props ps (perform props ls w XhrSend))
    as (H1 & H2 & H3 & H4 & H5 & H6 & H7).
  set (w2 := progressed props ps (perform props ls w XhrSend)) in *.
  rewrite send_eq in H1, H2, H3, H4, H5, H6, H7.
  cbn in H1, H2, H3, H4, H5, H6, H7.
  destruct e as [st body err result | r |].
  - destruct (successful st) eqn:Hst.
    + rewrite (readEnd_eq _ _ _ _ (blobOf props body)).
      2:{ rewrite complete_eq, Hst. cbn [readers]. rewrite H6.
          apply list_lookup_middle. reflexivity. }
      rewrite complete_eq, Hst. cbn -[successful]. rewrite Hst, H7, H2.
      destruct err; cbn; rewrite <- !app_assoc; cbn; rewrite <- ?app_assoc;
        reflexivity.
    + unfold readEnd. rewrite complete_eq, Hst. cbn [readers]. rewrite H6.
      rewrite lookup_ge_None_2 by reflexivity. cbn -[successful].
      rewrite Hst, H7, <- !app_assoc. reflexivity.
  - rewrite fail_eq. cbn. rewrite H7, <- !app_assoc. reflexivity.
  - rewrite abort_eq, H4. cbn. rewrite H7, <- !app_assoc. reflexivity.
Qed.

Lemma emittedSince_lifecycle (ls : ProgressEvent) (ps : list ProgressEvent)
    (e : Ending) (w : World) :
  emittedSince w (lifecycle props ls ps e w)
  = onLoadStart :: repeat onProgress (length ps)
      ++ endingCallbacks (image (instance w)) e.
Proof. apply emittedSince_app, lifecycle_emitted. Qed.

End Lifecycle.

Lemma count_prefix (f : CallbackEvent -> bool) (n : nat) (k : list CallbackEvent) :
  f onLoadStart = false -> f onProgress = false ->
  count f (onLoadStart :: repeat onProgress n ++ k) = count f k.
Proof.
  intros Hs Hp. unfold count. cbn. rewrite Hs.
  induction n as [| n IH]; [reflexivity |]. cbn. rewrite Hp. exact IH.
Qed.

Lemma beforeTerminal_prefix (n : nat) (k : list CallbackEvent) :
  beforeTerminal (onLoadStart :: repeat onProgress n ++ k)
  = onLoadStart :: repeat onProgress n ++ beforeTerminal k.
Proof.
  cbn. f_equal. induction n as [| n IH]; [reflexivity |].
  cbn. rewrite IH. reflexivity.
Qed.

Lemma afterTerminal_prefix (n : nat) (k : list CallbackEvent) :
  afterTerminal (onLoadStart :: repeat onProgress n ++ k) = afterTerminal k.
Proof. cbn. induction n as [| n IH]; [reflexivity |]. exact IH. Qed.

Lemma mounted_reached :
  run Sample.props (start Sample.props) [Mount Sample.hidden noLength]
  = Some Sample.mounted.
Proof. reflexivity. Qed.

(** C2, as stated, fails. A transfer that completes with a 404 calls
    [onLoadStart] and [onLoad] and none of [onError], [onAbort],
    [onLoadEnd]. A transfer that completes with a 200 and converts calls
    [onLoad] before [onLoadEnd], not after it. An aborted transfer calls
    [onAbort] and no [onLoad]. *)
Lemma C2_counterexample :
  let notFound :=
    emittedSince Sample.mounted
      (lifecycle Sample.props noLength [] (Loads 404 [] None "") Sample.mounted) in
  let converted :=
    emittedSince Sample.mounted
      (lifecycle Sample.props noLength [] (Loads 200 [] None "data:,") Sample.mounted) in
  let aborted :=
    emittedSince Sample.mounted
      (lifecycle Sample.props noLength [] Aborts Sample.mounted) in
  (notFound = [onLoadStart; onLoad] /\ oneTerminalThenOnLoad notFound = false) /\
  (converted = [onLoadStart; onLoad; onLayout; onLoadEnd] /\
   oneTerminalThenOnLoad converted = false) /\
  (aborted = [onLoadStart; onAbort] /\ oneTerminalThenOnLoad aborted = false).
Proof. repeat split; reflexivity. Qed.

Section OtherCourses.

Variable props : PropType.

Lemma unmount_idle_eq (w : World) :
  inFlight (request (instance w)) = false ->
  unmount props w =
  {| phase := Unmounted;
     instance := {| image := image (instance w);
                    isRequesting := isRequesting (instance w);
                    progress := progress (instance w);
                    request := networkError |};
     scrollListener := false;
     readers := readers w;
     emitted := emitted w |}.
Proof.
  intros Hfl. destruct w as [ph [im rq pr [st rs fl]] sl rd em].
  cbn in Hfl. subst fl. reflexivity.
Qed.

Lemma lifecycleUnmounted_emitted (ls : ProgressEvent)
    (ps : list ProgressEvent) (st : Z) (body : list Byte.byte)
    (err : option string) (result : string) (w : World) :
  emitted (lifecycleUnmounted props ls ps st body err result w)
  = emitted w ++ onLoadStart :: repeat onProgress (length ps)
      ++ unmountedCallbacks st err.
Proof.
  unfold lifecycleUnmounted, unmountedCallbacks. cbv zeta.
  destruct (progressed_frame props ps (perform props ls w XhrSend))
    as (H1 & H2 & H3 & H4 & H5 & H6 & H7).
  set (w2 := progressed props ps (perform props ls w XhrSend)) in *.
  rewrite send_eq in H1, H2, H3, H4, H5, H6, H7.
  cbn in H1, H2, H3, H4, H5, H6, H7.
  rewrite unmount_idle_eq by (rewrite complete_eq; reflexivity).
  rewrite complete_eq. cbn -[successful].
  destruct (successful st) eqn:Hst.
  - rewrite (readEndUnmounted_eq _ _ _ _ (blobOf props body)).
    2:{ cbn [readers]. rewrite H6. apply list_lookup_middle. reflexivity. }
    destruct err; cbn; rewrite H7, <- !app_assoc; reflexivity.
  - unfold readEndUnmounted. cbn [readers]. rewrite H6.
    rewrite lookup_ge_None_2 by reflexivity. cbn.
    rewrite H7, <- !app_assoc. reflexivity.
Qed.

Lemma lifecycleSuperseded_emitted (ls : ProgressEvent)
    (ps : list ProgressEvent) (w : World) :
  emitted (lifecycleSuperseded props ls ps w)
  = emitted w ++ onLoadStart :: repeat onProgress (length ps) ++ [].
Proof.
  unfold lifecycleSuperseded. cbv zeta.
  destruct (progressed_frame props ps (perform props ls w XhrSend))
    as (H1 & H2 & H3 & H4 & H5 & H6 & H7).
  set (w2 := progressed props ps (perform props ls w XhrSend)) in *.
  rewrite send_eq in H7. cbn in H7. cbn.
  rewrite H7, app_nil_r, <- app_assoc. reflexivity.
Qed.

End OtherCourses.

(** C2 (amended): counting the callbacks of a transfer's own events,
    which start with [onLoadStart] and one [onProgress] per progress
    event, at most one of [onError], [onAbort], [onLoadEnd] is called per
    transfer. After a transport error it is [onError], after an abort
    [onAbort], and no [onLoad] is called. After a completed transfer one
    [onLoad] is called first; when the status is in 200..299 it is
    followed by [onLoadEnd] if the conversion succeeds while the component
    is mounted, by [onError] if the conversion fails, mounted or not, and
    by nothing if the conversion succeeds after the component was
    unmounted; when the status is outside 200..299 nothing follows. A
    transfer dropped by a later [open] has neither of the three nor
    [onLoad]. *)
Theorem C2_lifecycle_callbacks (props : PropType) (ls : ProgressEvent)
    (ps : list ProgressEvent) (w : World) :
  (forall e,
     let cbs := emittedSince w (lifecycle props ls ps e w) in
     cbs = onLoadStart :: repeat onProgress (length ps)
             ++ endingCallbacks (image (instance w)) e /\
     match e with
     | Loads st _ _ _ =>
         count terminal cbs = (if successful st then 1 else 0)%nat /\
         count isOnLoad (beforeTerminal cbs) = 1%nat /\
         count isOnLoad (afterTerminal cbs) = 0%nat
     | Errors _ | Aborts =>
         count terminal cbs = 1%nat /\
         count isOnLoad cbs = 0%nat
     end) /\
  (forall st body err result,
     let cbs :=
       emittedSince w (lifecycleUnmounted props ls ps st body err result w) in
     cbs = onLoadStart :: repeat onProgress (length ps)
             ++ unmountedCallbacks st err /\
     count terminal cbs
       = (if successful st
          then match err with Some _ => 1 | None => 0 end
          else 0)%nat /\
     count isOnLoad (beforeTerminal cbs) = 1%nat /\
     count isOnLoad (afterTerminal cbs) = 0%nat) /\
  (let cbs := emittedSince w (lifecycleSuperseded props ls ps w) in
   cbs = onLoadStart :: repeat onProgress (length ps) /\
   count terminal cbs = 0%nat /\
   count isOnLoad cbs = 0%nat).
Proof.
  split; [| split].
  - intros e. cbv zeta. rewrite emittedSince_lifecycle. split; [reflexivity |].
    rewrite beforeTerminal_prefix, afterTerminal_prefix,
      !count_prefix by reflexivity.
    destruct e as [st body err result | r |]; cbn [endingCallbacks].
    + destruct (successful st); [| repeat split; reflexivity].
      destruct err as [name |]; [repeat split; reflexivity |].
      destruct (String.eqb result (image (instance w)));
        repeat split; reflexivity.
    + split; reflexivity.
    + split; reflexivity.
  - intros st body err result. cbv zeta.
    rewrite (emittedSince_app _ _ _
               (lifecycleUnmounted_emitted props ls ps st body err result w)).
    split; [reflexivity |].
    rewrite beforeTerminal_prefix, afterTerminal_prefix,
      !count_prefix by reflexivity.
    unfold unmountedCallbacks.
    destruct (successful st); [| repeat split; reflexivity].
    destruct err as [name |]; repeat split; reflexivity.
  - cbv zeta.
    rewrite (emittedSince_app _ _ _ (lifecycleSuperseded_emitted props ls ps w)).
    split; [rewrite app_nil_r; reflexivity |].
    rewrite !count_prefix by reflexivity. split; reflexivity.
Qed.

(** ** Reachable worlds *)

Section Reachable.

Variable props : PropType.

Lemma run_snoc (tr : list Input) : forall (w : World) (i : Input),
  run props w (tr ++ [i]) =
  match run props w tr with
  | Some w' => step props w' i
  | None => None
  end.
Proof.
  induction tr as [| j tr IH]; intros w i; cbn.
  - destruct (step props w i); reflexivity.
  - destruct (step props w j); [apply IH | reflexivity].
Qed.

Lemma invoke_checkViewport_frame (ls : ProgressEvent) (page : Page) (w : World) :
  let w' := invoke props ls (checkViewport props page) w in
  image (instance w') = image (instance w) /\ readers w' = readers w.
Proof.
  destruct w as [ph [im rq pr [st rs fl]] sl rd em].
  unfold invoke, checkViewport, withThis, fetch.
  cbn -[amountLoaded isInViewport js_lt isNaN].
  destruct (isInViewport (offset props) page), rq;
    cbn -[amountLoaded isInViewport js_lt isNaN].
  - split; reflexivity.
  - unfold deliver, handle, handlerOf, handleLoadStart.
    destruct (lengthComputable ls); split; reflexivity.
  - destruct (js_lt _ _ || isNaN _); [| split; reflexivity].
    cbn. destruct fl; split; reflexivity.
  - split; reflexivity.
Qed.

(** One input adds a pending reader only for the response of a completed
    transfer with a 2xx status, and changes the displayed image only when
    a pending reader ends without error. *)
Lemma step_frame (w : World) (i : Input) (w' : World) :
  step props w i = Some w' ->
  (forall b, b ∈ readers w' ->
     b ∈ readers w \/
     exists st body, i = Completed st body /\ successful st = true /\
                     b = blobOf props body) /\
  (image (instance w') = image (instance w) \/
   exists k b, i = ReadEnd k None (image (instance w')) /\
               readers w !! k = Some b).
Proof.
  unfold step.
  destruct (phase w) eqn:Hph;
    destruct i as [page ls | page ls | ev | st body | r | k err res |];
    try discriminate.
  - intros [= <-].
    destruct w as [ph [im rq pr [st rs fl]] sl rd em].
    unfold invoke, componentDidMount, checkViewport, withThis, fetch.
    cbn -[amountLoaded isInViewport js_lt isNaN].
    destruct (isInViewport (offset props) page), rq;
      cbn -[amountLoaded isInViewport js_lt isNaN];
      try (unfold deliver, handle, handlerOf, handleLoadStart;
           destruct (lengthComputable ls));
      try (destruct (js_lt _ _ || isNaN _));
      cbn; auto.
  - intros [= <-]. destruct (scrollListener w); [| auto].
    destruct (invoke_checkViewport_frame ls page w) as (Hi & Hr).
    rewrite Hi, Hr. auto.
  - destruct (inFlight _); [| discriminate]. intros [= <-].
    rewrite progress_eq. cbn. auto.
  - destruct (inFlight _); [| discriminate]. intros [= <-].
    rewrite complete_eq. cbn -[successful]. split; [| auto].
    intros b Hb. destruct (successful st) eqn:Hst; [| auto].
    apply elem_of_app in Hb as [Hb | Hb]; [auto |].
    apply list_elem_of_singleton in Hb. right. eauto.
  - destruct (inFlight _); [| discriminate]. intros [= <-].
    rewrite fail_eq. cbn. auto.
  - destruct (readers w !! k) as [b |] eqn:Hk; [| discriminate]. intros [= <-].
    rewrite (readEnd_eq _ _ _ _ _ Hk).
    assert (Hsub : forall b', b' ∈ delete k (readers w) -> b' ∈ readers w).
    { intros b' Hb'. eapply list_elem_of_delete_inv, Hb'. }
    destruct err as [name |]; cbn; split; eauto.
  - intros [= <-].
    destruct w as [ph [im rq pr [st rs fl]] sl rd em].
    unfold unmount, invoke, componentWillUnmount. cbn. destruct fl; cbn; auto.
  - destruct (readers w !! k) as [b |] eqn:Hk; [| discriminate]. intros [= <-].
    rewrite (readEndUnmounted_eq _ _ _ _ _ Hk).
    assert (Hsub : forall b', b' ∈ delete k (readers w) -> b' ∈ readers w).
    { intros b' Hb'. eapply list_elem_of_delete_inv, Hb'. }
    destruct err as [name |]; cbn; split; eauto.
Qed.

(** Every pending reader reads the response of a completed transfer with
    a 2xx status, and the displayed image is the default or what such a
    reader returned. *)
Lemma reachable_image (tr : list Input) : forall w : World,
  run props (start props) tr = Some w ->
  (forall b, b ∈ readers w ->
     exists st body, Completed st body ∈ tr /\ successful st = true /\
                     b = blobOf props body) /\
  (image (instance w) = defaultSource props \/
   convertedFrom props tr (image (instance w))).
Proof.
  induction tr as [| i tr IH] using rev_ind; intros w Hrun.
  - injection Hrun as <-. split; [| left; reflexivity].
    intros b Hb. cbn in Hb. inversion Hb.
  - rewrite run_snoc in Hrun.
    destruct (run props (start props) tr) as [w0 |] eqn:Hw0; [| discriminate].
    destruct (IH w0 eq_refl) as [IHr IHi].
    destruct (step_frame w0 i w Hrun) as [Hr Hi].
    split.
    + intros b Hb. destruct (Hr b Hb) as [Hold | (st & body & -> & Hst & ->)].
      * destruct (IHr b Hold) as (st & body & Hin & Hst & ->).
        exists st, body. rewrite elem_of_app. auto.
      * exists st, body. rewrite elem_of_app, list_elem_of_singleton. auto.
    + destruct Hi as [Hsame | (k & b & -> & Hk)].
      * rewrite Hsame. destruct IHi as [Hd | Hc]; [left; exact Hd | right].
        destruct Hc
          as (st & body & k & tr1 & tr2 & w1 & Hst & Hin & -> & Hr1 & Hk).
        exists st, body, k, tr1, (tr2 ++ [i]), w1.
        rewrite <- app_assoc. auto.
      * right.
        destruct (IHr b) as (st & body & Hin & Hst & ->).
        { eapply list_elem_of_lookup_2, Hk. }
        exists st, body, k, tr, [], w0. auto.
Qed.

Lemma step_requestingInv (w : World) (i : Input) (w' : World) :
  step props w i = Some w' -> requestingInv w -> requestingInv w'.
Proof.
  unfold step, requestingInv.
  destruct (phase w) eqn:Hph;
    destruct i as [page ls | page ls | ev | st body | r | k err res |];
    try discriminate.
  - intros [= <-] [Hc _]. specialize (Hc eq_refl).
    destruct w as [ph [im rq pr [st rs fl]] sl rd em]. cbn in Hc. subst rq.
    unfold invoke, componentDidMount, checkViewport, withThis, fetch.
    cbn -[amountLoaded isInViewport js_lt isNaN].
    destruct (isInViewport (offset props) page);
      cbn -[amountLoaded isInViewport js_lt isNaN];
      try (unfold deliver, handle, handlerOf, handleLoadStart;
           destruct (lengthComputable ls));
      cbn; split; intros; first [reflexivity | discriminate].
  - intros [= <-] [_ Hr]. destruct (scrollListener w).
    2:{ split; [rewrite Hph; discriminate | exact Hr]. }
    destruct w as [ph [im rq pr [st rs fl]] sl rd em]. cbn in Hph, Hr. subst ph.
    unfold invoke, checkViewport, withThis, fetch.
    cbn -[amountLoaded isInViewport js_lt isNaN].
    destruct (isInViewport (offset props) page), rq;
      cbn -[amountLoaded isInViewport js_lt isNaN];
      try (unfold deliver, handle, handlerOf, handleLoadStart;
           destruct (lengthComputable ls));
      try (destruct (js_lt _ _ || isNaN _));
      cbn; try rewrite (Hr eq_refl); cbn;
      split; intros; first [reflexivity | discriminate | auto].
  - destruct (inFlight _) eqn:Hfl; [| discriminate]. intros [= <-] _.
    rewrite progress_eq. cbn. split; [rewrite Hph; discriminate | auto].
  - destruct (inFlight _); [| discriminate]. intros [= <-] _.
    rewrite complete_eq. cbn. split; [rewrite Hph |]; discriminate.
  - destruct (inFlight _); [| discriminate]. intros [= <-] _.
    rewrite fail_eq. cbn. split; [rewrite Hph |]; discriminate.
  - destruct (readers w !! k) as [b |] eqn:Hk; [| discriminate].
    intros [= <-] _. rewrite (readEnd_eq _ _ _ _ _ Hk).
    destruct err; cbn; (split; [rewrite Hph |]; discriminate).
  - intros [= <-] [_ Hr].
    destruct w as [ph [im rq pr [st rs fl]] sl rd em]. cbn in Hr.
    unfold unmount, invoke, componentWillUnmount. cbn.
    destruct fl; cbn; split; intros; first [discriminate | auto].
  - destruct (readers w !! k) as [b |] eqn:Hk; [| discriminate].
    intros [= <-] [_ Hr]. rewrite (readEndUnmounted_eq _ _ _ _ _ Hk).
    destruct err; cbn; (split; [rewrite Hph; discriminate |]);
      [discriminate | exact Hr].
Qed.

(** In every reachable world, [isRequesting] implies a transfer in flight. *)
Lemma reachable_requestingInv (tr : list Input) : forall w : World,
  run props (start props) tr = Some w -> requestingInv w.
Proof.
  induction tr as [| i tr IH] using rev_ind; intros w Hrun.
  - injection Hrun as <-. split; [reflexivity | discriminate].
  - rewrite run_snoc in Hrun.
    destruct (run props (start props) tr) as [w0 |] eqn:Hw0; [| discriminate].
    eapply step_requestingInv; eauto.
Qed.

End Reachable.

(** ** A transfer of unknown length *)

Section UnknownLength.

Variable props : PropType.

Lemma step_progress_unknown (w : World) (i : Input) (w' : World) :
  step props w i = Some w' -> lengthUnknown i = true ->
  progress (instance w') = progress (instance w).
Proof.
  unfold step.
  destruct (phase w) eqn:Hph;
    destruct i as [page ls | page ls | ev | st body | r | k err res |];
    try discriminate; cbn [lengthUnknown].
  - intros [= <-] Hls. apply negb_true_iff in Hls.
    destruct w as [ph [im rq pr [st rs fl]] sl rd em].
    unfold invoke, componentDidMount, checkViewport, withThis, fetch.
    cbn -[amountLoaded isInViewport js_lt isNaN].
    destruct (isInViewport (offset props) page), rq;
      cbn -[amountLoaded isInViewport js_lt isNaN];
      try (unfold deliver, handle, handlerOf, handleLoadStart; rewrite Hls);
      try (destruct (js_lt _ _ || isNaN _));
      reflexivity.
  - intros [= <-] Hls. apply negb_true_iff in Hls.
    destruct (scrollListener w); [| reflexivity].
    destruct w as [ph [im rq pr [st rs fl]] sl rd em].
    unfold invoke, checkViewport, withThis, fetch.
    cbn -[amountLoaded isInViewport js_lt isNaN].
    destruct (isInViewport (offset props) page), rq;
      cbn -[amountLoaded isInViewport js_lt isNaN];
      try (unfold deliver, handle, handlerOf, handleLoadStart; rewrite Hls);
      try (destruct (js_lt _ _ || isNaN _));
      try reflexivity; cbn; destruct fl; reflexivity.
  - destruct (inFlight _); [| discriminate]. intros [= <-] Hev.
    apply negb_true_iff in Hev. rewrite progress_eq. cbn. rewrite Hev.
    reflexivity.
  - destruct (inFlight _); [| discriminate]. intros [= <-] _.
    rewrite complete_eq. reflexivity.
  - destruct (inFlight _); [| discriminate]. intros [= <-] _.
    rewrite fail_eq. reflexivity.
  - destruct (readers w !! k) as [b |] eqn:Hk; [| discriminate].
    intros [= <-] _. rewrite (readEnd_eq _ _ _ _ _ Hk).
    destruct err; reflexivity.
  - intros [= <-] _.
    destruct w as [ph [im rq pr [st rs fl]] sl rd em].
    unfold unmount, invoke, componentWillUnmount. cbn. destruct fl; reflexivity.
  - destruct (readers w !! k) as [b |] eqn:Hk; [| discriminate].
    intros [= <-] _. rewrite (readEndUnmounted_eq _ _ _ _ _ Hk).
    destruct err; reflexivity.
Qed.

(** While no event reports a computable length, [progress] stays as the
    field initialiser left it. *)
Lemma reachable_progress_unknown (tr : list Input) : forall w : World,
  run props (start props) tr = Some w ->
  forallb lengthUnknown tr = true ->
  progress (instance w) = {| loaded := 0; total := 1 |}.
Proof.
  induction tr as [| i tr IH] using rev_ind; intros w Hrun Hunknown.
  - injection Hrun as <-. reflexivity.
  - rewrite run_snoc in Hrun.
    destruct (run props (start props) tr) as [w0 |] eqn:Hw0; [| discriminate].
    rewrite forallb_app in Hunknown.
    apply andb_true_iff in Hunknown as [Htr Hi].
    cbn in Hi. rewrite andb_true_r in Hi.
    rewrite (step_progress_unknown w0 i w Hrun Hi).
    apply IH; [reflexivity | exact Htr].
Qed.

End UnknownLength.

(** C3, as stated, fails: with [minLoaded] 0 a component is mounted in
    view, a progress event of unknown length arrives and the element is
    scrolled away. The percentage is 0 of 1, that is 0, which is neither
    below 0 nor NaN: the request stays in flight and [onAbort] is not
    called. *)
Lemma C3_counterexample :
  option_map
    (fun w => (isRequesting (instance w), inFlight (request (instance w)),
               progress (instance w), emitted w))
    (run Scenario.keepLoading (start Scenario.keepLoading)
       Scenario.scrolledAway)
  = Some (true, true, {| loaded := 0; total := 1 |},
          [onLayout; onLoadStart; onProgress]).
Proof. reflexivity. Qed.

(** C3 (amended): when a request is active and the element has left the
    expanded viewport, [checkViewport] calls [abort] for every [minLoaded]
    if the loaded percentage is NaN; and if the total size is unknown (no
    event of the trace reported a computable length), [progress] is still
    0 of 1 and [checkViewport] calls [abort] exactly when [minLoaded] is
    above 0. *)
Theorem C3_unknown_total (props : PropType) (page : Page) :
  isInViewport (offset props) page = false ->
  (forall this,
     isRequesting this = true ->
     isNaN (amountLoaded this) = true ->
     checkViewport props page this = (this, [XhrAbort])) /\
  (forall tr w,
     run props (start props) tr = Some w ->
     forallb lengthUnknown tr = true ->
     isRequesting (instance w) = true ->
     progress (instance w) = {| loaded := 0; total := 1 |} /\
     checkViewport props page (instance w)
     = (instance w,
        if Qlt_bool 0 (minLoaded props) then [XhrAbort] else [])).
Proof.
  intros Hout. split.
  - intros this Hreq Hnan. unfold checkViewport, withThis.
    rewrite Hout, Hreq, Hnan, orb_true_r. reflexivity.
  - intros tr w Hrun Hunknown Hreq.
    pose proof (reachable_progress_unknown props tr w Hrun Hunknown) as Hp.
    split; [exact Hp |].
    unfold checkViewport, withThis, amountLoaded. rewrite Hout, Hreq, Hp.
    cbn. destruct (Qlt_bool _ _); reflexivity.
Qed.

Lemma C3_witness :
  checkViewport Sample.props Sample.hidden Sample.requestingNothingOfNothing
  = (Sample.requestingNothingOfNothing, [XhrAbort]) /\
  exists w,
    run Sample.props (start Sample.props) Scenario.lengthNeverKnown = Some w /\
    isRequesting (instance w) = true /\
    progress (instance w) = {| loaded := 0; total := 1 |} /\
    checkViewport Sample.props Sample.hidden (instance w)
    = (instance w, [XhrAbort]).
Proof.
  destruct (C3_unknown_total Sample.props Sample.hidden eq_refl) as [Hnan Hunknown].
  split.
  - apply Hnan; reflexivity.
  - eexists. split; [reflexivity |]. split; [reflexivity |].
    apply (Hunknown Scenario.lengthNeverKnown); reflexivity.
Defined.

(** ** The displayed image *)

(** C5: in every reachable world the displayed image is the default
    source or what a reader returned for the response of a completed
    transfer with a 2xx status; and a step from a reachable world changes
    the displayed image only when it is the error-free end of a reader of
    such a response. Progress events, transport errors, aborts, responses
    with another status and failed conversions leave it as it is. *)
Theorem C5_displayed_image (props : PropType) (tr : list Input)
    (w : World) (i : Input) (w' : World) :
  run props (start props) tr = Some w ->
  step props w i = Some w' ->
  (image (instance w) = defaultSource props \/
   convertedFrom props tr (image (instance w))) /\
  (image (instance w') = image (instance w) \/
   exists k st body,
     i = ReadEnd k None (image (instance w')) /\
     readers w !! k = Some (blobOf props body) /\
     successful st = true /\
     Completed st body ∈ tr).
Proof.
  intros Hrun Hstep.
  destruct (reachable_image props tr w Hrun) as [Hreaders Himage].
  split; [exact Himage |].
  destruct (step_frame props w i w' Hstep) as [_ [Hsame | (k & b & Hi & Hk)]].
  - left. exact Hsame.
  - right.
    destruct (Hreaders b) as (st & body & Hin & Hst & ->).
    { eapply list_elem_of_lookup_2, Hk. }
    exists k, st, body. auto.
Qed.

Lemma C5_witness :
  exists w w',
    run Sample.props (start Sample.props) Sample.received = Some w /\
    step Sample.props w (ReadEnd 0 None "data:image/*;base64,") = Some w' /\
    image (instance w) = "spinner" /\
    image (instance w') = "data:image/*;base64," /\
    (image (instance w) = defaultSource Sample.props \/
     convertedFrom Sample.props Sample.received (image (instance w))) /\
    (image (instance w') = image (instance w) \/
     exists k st body,
       ReadEnd 0 None "data:image/*;base64,"
         = ReadEnd k None (image (instance w')) /\
       readers w !! k = Some (blobOf Sample.props body) /\
       successful st = true /\
       Completed st body ∈ Sample.received).
Proof.
  eexists _, _. split; [reflexivity |]. split; [reflexivity |].
  split; [reflexivity |]. split; [reflexivity |].
  apply (C5_displayed_image Sample.props Sample.received _
           (ReadEnd 0 None "data:image/*;base64,") _); reflexivity.
Defined.

(** C6, evaluated on a trace: the transfer completes with a 200, a scroll
    event with the element in view arrives before the reader ends and
    starts a second transfer, then the reader ends. In the world reached
    [isRequesting] is false while the second transfer is in flight. *)
Theorem C6_not_requesting_while_in_flight :
  option_map
    (fun w => (isRequesting (instance w), inFlight (request (instance w)),
               emitted w))
    (run Sample.props (start Sample.props) Sample.scrolledWhileReading)
  = Some (false, true,
          [onLayout; onLoadStart; onLoad; onLoadStart; onLayout; onLoadEnd]).
Proof. reflexivity. Qed.

(** ** Rendering *)

Lemma indexOf_range (l : list string) (x : string) :
  (indexOf l x = -1 \/ 0 <= indexOf l x)%Z.
Proof.
  induction l as [| y l IH]; cbn; [auto |].
  destruct (String.eqb y x); [right; lia |].
  destruct (Z.eqb_spec (indexOf l x) (-1)); [auto | right; lia].
Qed.

Lemma indexOf_absent (l : list string) (x : string) :
  indexOf l x = (-1)%Z <-> x ∉ l.
Proof.
  induction l as [| y l IH]; cbn.
  - split; [intros _; apply not_elem_of_nil | reflexivity].
  - rewrite not_elem_of_cons.
    destruct (String.eqb_spec y x) as [-> | Hne].
    + split; [discriminate | intros [Hx _]; congruence].
    + destruct (Z.eqb_spec (indexOf l x) (-1)) as [He | Hn].
      * split; [intros _; split; [congruence | apply IH, He] | reflexivity].
      * split.
        -- intros H. destruct (indexOf_range l x); lia.
        -- intros [_ Hx]. apply IH in Hx. contradiction.
Qed.

Lemma keys_spec (o : gmap string JsValue) (k : string) :
  k ∈ keys o <-> is_Some (o !! k).
Proof.
  unfold keys. rewrite list_elem_of_fmap. split.
  - intros ([k' v] & -> & Hin). apply elem_of_map_to_list in Hin. eauto.
  - intros [v Hv]. exists (k, v). split; [reflexivity |].
    apply elem_of_map_to_list, Hv.
Qed.

Lemma copy_lookup (props : gmap string JsValue) (ks : list string) :
  forall (acc : gmap string JsValue) (k : string),
  foldl (fun acc propName => <[propName := props !!! propName]> acc) acc ks !! k
  = if decide (k ∈ ks) then Some (props !!! k) else acc !! k.
Proof.
  induction ks as [| p ks IH]; intros acc k; cbn.
  - destruct (decide (k ∈ [])) as [H | _]; [inversion H | reflexivity].
  - rewrite IH. destruct (decide (k ∈ ks)) as [Hin | Hout].
    + rewrite decide_True by (right; exact Hin). reflexivity.
    + destruct (decide (k = p)) as [-> | Hne].
      * rewrite decide_True by left. apply lookup_insert_eq.
      * rewrite decide_False by (rewrite elem_of_cons; tauto).
        apply lookup_insert_ne. congruence.
Qed.

Lemma imgProps_lookup (props : gmap string JsValue) (k : string) :
  imgProps props !! k = if decide (k ∈ ownProps) then None else props !! k.
Proof.
  unfold imgProps. rewrite copy_lookup, lookup_empty.
  destruct (decide (k ∈ filter _ (keys props))) as [Hin | Hout].
  - apply list_elem_of_filter in Hin as [Hidx Hk].
    apply indexOf_absent in Hidx. apply keys_spec in Hk as [v Hv].
    rewrite decide_False by exact Hidx.
    rewrite Hv. f_equal. apply lookup_total_correct, Hv.
  - destruct (decide (k ∈ ownProps)) as [_ | Hown]; [reflexivity |].
    destruct (props !! k) as [v |] eqn:Hv; [| reflexivity].
    exfalso. apply Hout. apply list_elem_of_filter. split.
    + apply indexOf_absent, Hown.
    + apply keys_spec. eauto.
Qed.

Lemma render_lookup (props : gmap string JsValue) (this : Image) (k : string) :
  attributes (render props this) !! k
  = if decide (k = "src") then Some (JsString (image this))
    else imgProps props !! k.
Proof.
  unfold render. cbn [attributes].
  destruct (decide (k = "src")) as [-> | Hne].
  - apply lookup_insert_eq.
  - apply lookup_insert_ne. congruence.
Qed.

(** C10, as stated, fails for the key [src]: it is not in [ownProps], the
    caller passes [/other.png], and the rendered element's [src] is the
    image of the state. *)
Lemma C10_counterexample :
  Scenario.attrs !! "src" = Some (JsString "/other.png") /\
  indexOf ownProps "src" = (-1)%Z /\
  attributes (render Scenario.attrs (constructed Sample.props)) !! "src"
  = Some (JsString "spinner").
Proof.
  split; [vm_compute; reflexivity |]. split; [reflexivity |].
  rewrite render_lookup. reflexivity.
Qed.

(** C10 (amended): the props that reach the rendered [img] are exactly
    those whose key is not in [ownProps] and is not [src], each with its
    value; the element's [src] is always the image of the state. The
    object [imgProps] spreads holds exactly the props whose key is not in
    [ownProps]; [type] is not in [ownProps] and reaches the element as
    given. *)
Theorem C10_forwarded_props (props : gmap string JsValue) :
  (forall k, imgProps props !! k
             = if decide (k ∈ ownProps) then None else props !! k) /\
  ("type" ∉ ownProps) /\
  (forall this k,
     attributes (render props this) !! k
     = if decide (k = "src") then Some (JsString (image this))
       else if decide (k ∈ ownProps) then None
       else props !! k) /\
  (forall this, attributes (render props this) !! "type" = props !! "type").
Proof.
  split; [apply imgProps_lookup |]. split; [| split].
  - apply indexOf_absent. reflexivity.
  - intros this k. rewrite render_lookup, imgProps_lookup. reflexivity.
  - intros this. rewrite render_lookup, imgProps_lookup.
    rewrite decide_False by discriminate.
    rewrite decide_False; [reflexivity |].
    apply indexOf_absent. reflexivity.
Qed.

(** * Further properties *)

(** ** The abort threshold in bytes *)

Lemma Qdiv_lt_iff (a b m : Q) : 0 < b -> (a / b < m <-> a < m * b).
Proof.
  intros Hb. split.
  - intros H.
    assert (Hne : ~ b == 0) by (intros E; rewrite E in Hb; discriminate).
    rewrite <- (Qmult_div_r a b Hne) at 1. rewrite Qmult_comm.
    apply Qmult_lt_compat_r; assumption.
  - apply Qlt_shift_div_r, Hb.
Qed.

Lemma js_lt_amountLoaded (this : Image) (m : Q) :
  js_lt (amountLoaded this) m = true <->
  total (progress this) <> 0%N /\
  inject_Z (Z.of_N (loaded (progress this) * 100))
    < m * inject_Z (Z.of_N (total (progress this))).
Proof.
  unfold amountLoaded. cbv zeta.
  destruct (N.eqb_spec (total (progress this)) 0) as [Ht | Ht].
  - destruct (_ =? _)%N; cbn; split; try discriminate; intros [H _]; contradiction.
  - cbn [js_lt]. rewrite Qlt_bool_iff, Qdiv_lt_iff.
    + tauto.
    + change 0 with (inject_Z 0). rewrite <- Zlt_Qlt. lia.
Qed.

(** X1: for a requesting instance whose element is outside the expanded
    viewport, [checkViewport] calls [abort] exactly when nothing of
    nothing is loaded, or the total is not zero and
    [loaded * 100 < minLoaded * total]. In particular a total of zero with
    some bytes loaded (percentage [Infinity]) never aborts. *)
Theorem X1_abort_threshold (props : PropType) (page : Page) (this : Image) :
  isInViewport (offset props) page = false ->
  isRequesting this = true ->
  (existsb isAbort (snd (checkViewport props page this)) = true <->
   (loaded (progress this) = 0%N /\ total (progress this) = 0%N) \/
   (total (progress this) <> 0%N /\
    inject_Z (Z.of_N (loaded (progress this) * 100))
      < minLoaded props * inject_Z (Z.of_N (total (progress this))))).
Proof.
  intros Hout Hreq. unfold checkViewport, withThis. rewrite Hout, Hreq. cbn [andb negb].
  rewrite <- js_lt_amountLoaded, <- amountLoaded_NaN_iff.
  destruct (js_lt _ _), (isNaN _); cbn; intuition congruence.
Qed.

Lemma X1_witness :
  existsb isAbort
    (snd (checkViewport Sample.props Sample.hidden Scenario.thirtyOfHundred))
  = true.
Proof.
  apply (X1_abort_threshold Sample.props Sample.hidden Scenario.thirtyOfHundred);
    [reflexivity | reflexivity |].
  right. split; [discriminate | reflexivity].
Defined.

(** ** Progress when the length is never computable *)


Section Total.
Variable props : PropType.

Lemma step_total (w : World) (i : Input) (w' : World) :
  step props w i = Some w' -> plainStart i = true ->
  total (progress (instance w')) = total (progress (instance w)).
Proof.
  unfold step.
  destruct (phase w) eqn:Hph;
    destruct i as [page ls | page ls | ev | st body | r | k err res |];
    try discriminate; cbn [plainStart].
  - intros [= <-] Hls. apply negb_true_iff in Hls.
    destruct w as [ph [im rq pr [st rs fl]] sl rd em].
    unfold invoke, componentDidMount, checkViewport, withThis, fetch.
    cbn -[amountLoaded isInViewport js_lt isNaN].
    destruct (isInViewport (offset props) page), rq;
      cbn -[amountLoaded isInViewport js_lt isNaN];
      try (unfold deliver, handle, handlerOf, handleLoadStart; rewrite Hls);
      try (destruct (js_lt _ _ || isNaN _));
      reflexivity.
  - intros [= <-] Hls. apply negb_true_iff in Hls.
    destruct (scrollListener w); [| reflexivity].
    destruct w as [ph [im rq pr [st rs fl]] sl rd em].
    unfold invoke, checkViewport, withThis, fetch.
    cbn -[amountLoaded isInViewport js_lt isNaN].
    destruct (isInViewport (offset props) page), rq;
      cbn -[amountLoaded isInViewport js_lt isNaN];
      try (unfold deliver, handle, handlerOf, handleLoadStart; rewrite Hls);
      try (destruct (js_lt _ _ || isNaN _));
      try reflexivity; cbn; destruct fl; reflexivity.
  - destruct (inFlight _); [| discriminate]. intros [= <-] _.
    rewrite progress_eq. cbn. destruct (lengthComputable ev); reflexivity.
  - destruct (inFlight _); [| discriminate]. intros [= <-] _.
    rewrite complete_eq. reflexivity.
  - destruct (inFlight _); [| discriminate]. intros [= <-] _.
    rewrite fail_eq. reflexivity.
  - destruct (readers w !! k) as [b |] eqn:Hk; [| discriminate].
    intros [= <-] _. rewrite (readEnd_eq _ _ _ _ _ Hk).
    destruct err; reflexivity.
  - intros [= <-] _.
    destruct w as [ph [im rq pr [st rs fl]] sl rd em].
    unfold unmount, invoke, componentWillUnmount. cbn. destruct fl; reflexivity.
  - destruct (readers w !! k) as [b |] eqn:Hk; [| discriminate].
    intros [= <-] _. rewrite (readEndUnmounted_eq _ _ _ _ _ Hk).
    destruct err; reflexivity.
Qed.

Lemma reachable_total (tr : list Input) : forall w : World,
  run props (start props) tr = Some w ->
  forallb plainStart tr = true ->
  total (progress (instance w)) = 1%N.
Proof.
  induction tr as [| i tr IH] using rev_ind; intros w Hrun Hplain.
  - injection Hrun as <-. reflexivity.
  - rewrite run_snoc in Hrun.
    destruct (run props (start props) tr) as [w0 |] eqn:Hw0; [| discriminate].
    rewrite forallb_app in Hplain. apply andb_true_iff in Hplain as [Htr Hi].
    cbn in Hi. rewrite andb_true_r in Hi.
    rewrite (step_total w0 i w Hrun Hi). apply IH; [reflexivity | exact Htr].
Qed.
End Total.

(** X2: when no [loadstart] event reports a computable length,
    [progress.total] is 1 in every reachable world: progress events never
    assign it. *)
Theorem X2_total_stays_at_one (props : PropType) (tr : list Input) (w : World) :
  run props (start props) tr = Some w ->
  forallb plainStart tr = true ->
  total (progress (instance w)) = 1%N.
Proof. apply reachable_total. Qed.

Lemma X2_witness :
  exists w, run Sample.props (start Sample.props) Scenario.loading = Some w /\
            progress (instance w) = {| loaded := 30; total := 1 |} /\
            total (progress (instance w)) = 1%N.
Proof.
  eexists. split; [reflexivity |]. split; [reflexivity |].
  apply (X2_total_stays_at_one Sample.props Scenario.loading); reflexivity.
Defined.

(** X3: when no [loadstart] event reports a computable length,
    [minLoaded] is at most 100 and a progress event has set a non-zero
    [loaded], [checkViewport] does not call [abort], wherever the element
    is: the percentage it compares is [loaded * 100]. *)
Theorem X3_no_abort_once_a_byte_is_loaded (props : PropType)
    (tr : list Input) (w : World) (page : Page) :
  run props (start props) tr = Some w ->
  forallb plainStart tr = true ->
  loaded (progress (instance w)) <> 0%N ->
  minLoaded props <= 100 ->
  existsb isAbort (snd (checkViewport props page (instance w))) = false.
Proof.
  intros Hrun Hplain Hl Hm.
  pose proof (reachable_total props tr w Hrun Hplain) as Ht.
  assert (Hlt : js_lt (amountLoaded (instance w)) (minLoaded props) = false).
  { apply not_true_iff_false. rewrite js_lt_amountLoaded, Ht.
    intros [_ H]. change (inject_Z (Z.of_N 1)) with 1 in H.
    rewrite Qmult_1_r in H.
    assert (100 <= inject_Z (Z.of_N (loaded (progress (instance w)) * 100))).
    { change 100 with (inject_Z 100). rewrite <- Zle_Qle. lia. }
    lra. }
  assert (Hnan : isNaN (amountLoaded (instance w)) = false).
  { apply not_true_iff_false. rewrite amountLoaded_NaN_iff. tauto. }
  unfold checkViewport, withThis. rewrite Hlt, Hnan.
  destruct (isInViewport _ _), (isRequesting _); reflexivity.
Qed.

Lemma X3_witness :
  exists w, run Sample.props (start Sample.props) Scenario.loading = Some w /\
            isRequesting (instance w) = true /\
            isInViewport (offset Sample.props) Sample.hidden = false /\
            existsb isAbort
              (snd (checkViewport Sample.props Sample.hidden (instance w)))
            = false.
Proof.
  eexists. split; [reflexivity |]. split; [reflexivity |].
  split; [reflexivity |].
  apply (X3_no_abort_once_a_byte_is_loaded Sample.props Scenario.loading);
    [reflexivity | reflexivity | discriminate | discriminate].
Defined.

(** ** After a successful conversion *)

Lemma count_snoc (f : CallbackEvent -> bool) (l k : list CallbackEvent) :
  count f (l ++ k) = (count f l + count f k)%nat.
Proof. unfold count. rewrite List.filter_app, length_app. reflexivity. Qed.

Section Finality.
Variable props : PropType.

Lemma step_unlistened (w : World) (i : Input) (w' : World) :
  phase w <> Constructed -> scrollListener w = false ->
  step props w i = Some w' ->
  phase w' <> Constructed /\ scrollListener w' = false /\
  count isOnLoadStart (emitted w') = count isOnLoadStart (emitted w).
Proof.
  intros Hph Hsl. unfold step.
  destruct (phase w) eqn:Hp; [contradiction | |];
    destruct i as [page ls | page ls | ev | st body | r | k err res |];
    try discriminate.
  - intros [= <-]. rewrite Hsl.
    split; [rewrite Hp; discriminate | split; [exact Hsl | reflexivity]].
  - destruct (inFlight _); [| discriminate]. intros [= <-].
    rewrite progress_eq. cbn -[count]. rewrite Hp, count_snoc, Nat.add_0_r.
    split; [discriminate | split; [assumption | reflexivity]].
  - destruct (inFlight _); [| discriminate]. intros [= <-].
    rewrite complete_eq. cbn -[count]. rewrite Hp, count_snoc, Nat.add_0_r.
    split; [discriminate | split; [assumption | reflexivity]].
  - destruct (inFlight _); [| discriminate]. intros [= <-].
    rewrite fail_eq. cbn -[count]. rewrite Hp, count_snoc, Nat.add_0_r.
    split; [discriminate | split; [assumption | reflexivity]].
  - destruct (readers w !! k) as [b |] eqn:Hk; [| discriminate].
    intros [= <-]. rewrite (readEnd_eq _ _ _ _ _ Hk).
    destruct err; cbn -[count]; rewrite Hp, ?count_snoc.
    + rewrite Nat.add_0_r.
      split; [discriminate | split; [assumption | reflexivity]].
    + destruct (String.eqb _ _); cbn -[count]; rewrite ?count_snoc; cbn; rewrite Nat.add_0_r;
        (split; [discriminate | split; reflexivity]).
  - intros [= <-].
    destruct w as [ph [im rq pr [st rs fl]] sl rd em]. cbn in Hsl. subst sl.
    unfold unmount, invoke, componentWillUnmount. cbn -[count].
    destruct fl; cbn -[count]; rewrite ?count_snoc, ?Nat.add_0_r;
      (split; [discriminate | split; reflexivity]).
  - destruct (readers w !! k) as [b |] eqn:Hk; [| discriminate].
    intros [= <-]. rewrite (readEndUnmounted_eq _ _ _ _ _ Hk).
    destruct err; cbn -[count]; rewrite Hp, ?count_snoc, ?Nat.add_0_r;
      (split; [discriminate | split; [assumption | reflexivity]]).
Qed.

Lemma run_unlistened (tr : list Input) : forall w w' : World,
  phase w <> Constructed -> scrollListener w = false ->
  run props w tr = Some w' ->
  scrollListener w' = false /\
  count isOnLoadStart (emitted w') = count isOnLoadStart (emitted w).
Proof.
  induction tr as [| i tr IH]; intros w w' Hph Hsl Hrun; cbn in Hrun.
  - injection Hrun as <-. split; [assumption | reflexivity].
  - destruct (step props w i) as [w1 |] eqn:Hstep; [| discriminate].
    destruct (step_unlistened w i w1 Hph Hsl Hstep) as (Hph1 & Hsl1 & Hc1).
    destruct (IH w1 w' Hph1 Hsl1 Hrun) as [Hsl' Hc']. split; [assumption | congruence].
Qed.
End Finality.

(** X4: when a reader ends without error while the component is mounted,
    [onLoadEnd] is the last callback, the image is the reader's result,
    and from then on the scroll listener stays removed and no further
    [onLoadStart] is called, whatever the environment does, unmounting
    included. *)
Theorem X4_success_finality (props : PropType) (w : World) (k : nat)
    (result : string) (w1 : World) (tr : list Input) (w2 : World) :
  phase w = Mounted ->
  step props w (ReadEnd k None result) = Some w1 ->
  run props w1 tr = Some w2 ->
  last (emitted w1) = Some onLoadEnd /\
  image (instance w1) = result /\
  scrollListener w2 = false /\
  count isOnLoadStart (emitted w2) = count isOnLoadStart (emitted w1).
Proof.
  intros Hp Hstep Hrun. unfold step in Hstep. rewrite Hp in Hstep.
  destruct (readers w !! k) as [b |] eqn:Hk; [| discriminate].
  injection Hstep as <-.
  pose proof (readEnd_eq k None result w b Hk) as E.
  split; [rewrite E; cbn; rewrite app_assoc; apply last_snoc |].
  split; [rewrite E; reflexivity |].
  apply (run_unlistened props tr _ w2); [| | exact Hrun].
  - rewrite E. cbn. rewrite Hp. discriminate.
  - rewrite E. reflexivity.
Qed.

Lemma X4_witness :
  exists w w1 w2,
    run Sample.props (start Sample.props) Sample.received = Some w /\
    phase w = Mounted /\
    step Sample.props w (ReadEnd 0 None "data:image/*;base64,") = Some w1 /\
    run Sample.props w1 [Scroll Sample.visible noLength; Unmount] = Some w2 /\
    last (emitted w1) = Some onLoadEnd /\
    image (instance w1) = "data:image/*;base64," /\
    scrollListener w2 = false /\
    count isOnLoadStart (emitted w2) = count isOnLoadStart (emitted w1).
Proof.
  set (w := complete Sample.props 200 []
              (invoke Sample.props noLength
                 (componentDidMount Sample.props Sample.visible)
                 (with_phase Mounted (start Sample.props)))).
  set (w1 := readEnd 0 None "data:image/*;base64," w).
  exists w, w1, (unmount Sample.props w1).
  split; [reflexivity |]. split; [reflexivity |]. split; [reflexivity |].
  split; [reflexivity |].
  apply (X4_success_finality Sample.props w 0 "data:image/*;base64," w1
           [Scroll Sample.visible noLength; Unmount] (unmount Sample.props w1));
    reflexivity.
Defined.

(** X14: when the reader of a response ends after the component was
    unmounted, a result is dropped: no callback is called and the image
    and [isRequesting] stay as they are; an error still clears
    [isRequesting] and calls [onError]. The scroll listener is untouched
    and the reader is no longer pending. *)
Theorem X14_reader_ends_after_unmount (props : PropType) (w : World)
    (k : nat) (err : option string) (result : string) (w' : World) :
  phase w = Unmounted ->
  step props w (ReadEnd k err result) = Some w' ->
  observe w w'
  = (match err with
     | Some name => [onError (ReaderError name)]
     | None => []
     end,
     match err with
     | Some _ => false
     | None => isRequesting (instance w)
     end,
     inFlight (request (instance w)),
     image (instance w)) /\
  scrollListener w' = scrollListener w /\
  readers w' = delete k (readers w) /\
  phase w' = Unmounted.
Proof.
  intros Hp Hstep. unfold step in Hstep. rewrite Hp in Hstep.
  destruct (readers w !! k) as [b |] eqn:Hk; [| discriminate].
  injection Hstep as <-. rewrite (readEndUnmounted_eq _ _ _ _ _ Hk).
  unfold observe, emittedSince. destruct err as [name |]; cbn.
  - rewrite drop_app_length, Hp. repeat split.
  - rewrite drop_all, Hp. repeat split.
Qed.

Lemma X14_witness :
  exists w w',
    run Sample.props (start Sample.props) Scenario.unmountedWhileReading
      = Some w /\
    phase w = Unmounted /\
    step Sample.props w (ReadEnd 0 None "data:image/*;base64,") = Some w' /\
    observe w w' = ([], false, false, "spinner") /\
    scrollListener w' = false /\
    readers w' = [] /\
    phase w' = Unmounted.
Proof.
  set (w := unmount Sample.props
              (complete Sample.props 200 []
                 (invoke Sample.props noLength
                    (componentDidMount Sample.props Sample.visible)
                    (with_phase Mounted (start Sample.props))))).
  exists w, (readEndUnmounted 0 None "data:image/*;base64," w).
  split; [reflexivity |]. split; [reflexivity |]. split; [reflexivity |].
  exact (X14_reader_ends_after_unmount Sample.props w 0 None
           "data:image/*;base64,"
           (readEndUnmounted 0 None "data:image/*;base64," w)
           eq_refl eq_refl).
Defined.

(** ** Scroll events, unmounting *)

(** X5: two visibility checks in a row with the element in view do what
    the first one does alone: the second never sends a second request. *)
Theorem X5_second_scroll_in_view_is_idle (props : PropType)
    (ls ls' : ProgressEvent) (page page' : Page) (w : World) :
  isInViewport (offset props) page = true ->
  isInViewport (offset props) page' = true ->
  invoke props ls' (checkViewport props page')
    (invoke props ls (checkViewport props page) w)
  = invoke props ls (checkViewport props page) w.
Proof.
  intros Hin Hin'.
  destruct w as [ph [im rq pr [st rs fl]] sl rd em].
  unfold invoke, checkViewport, withThis, fetch.
  cbn -[amountLoaded isInViewport js_lt isNaN]. rewrite Hin.
  destruct rq; cbn -[amountLoaded isInViewport js_lt isNaN].
  - rewrite Hin'. reflexivity.
  - unfold deliver, handle, handlerOf, handleLoadStart.
    destruct (lengthComputable ls);
      cbn -[amountLoaded isInViewport js_lt isNaN]; rewrite Hin'; reflexivity.
Qed.

Lemma X5_witness :
  invoke Sample.props noLength (checkViewport Sample.props Sample.visible)
    (invoke Sample.props noLength (checkViewport Sample.props Sample.visible)
       Sample.mounted)
  = invoke Sample.props noLength (checkViewport Sample.props Sample.visible)
      Sample.mounted.
Proof.
  apply (X5_second_scroll_in_view_is_idle Sample.props noLength noLength
           Sample.visible Sample.visible Sample.mounted); reflexivity.
Defined.

(** X6: unmounting a reachable component removes the scroll listener
    and leaves it not requesting with nothing in flight and the same
    image; [onAbort] is called exactly when a transfer was in flight. *)
Theorem X6_unmount (props : PropType) (tr : list Input) (w w' : World) :
  run props (start props) tr = Some w ->
  step props w Unmount = Some w' ->
  observe w w'
  = (if inFlight (request (instance w)) then [onAbort] else [],
     false, false, image (instance w)) /\
  scrollListener w' = false /\
  phase w' = Unmounted.
Proof.
  intros Hrun Hstep.
  destruct (reachable_requestingInv props tr w Hrun) as [_ Hinv].
  unfold step in Hstep. destruct (phase w); try discriminate.
  injection Hstep as <-.
  destruct w as [ph [im rq pr [st rs fl]] sl rd em]. cbn in Hinv.
  unfold observe, emittedSince, invoke, componentWillUnmount. cbn.
  destruct fl; cbn.
  - rewrite drop_app_length. repeat split.
  - rewrite drop_all. destruct rq; [discriminate (Hinv eq_refl) |]. repeat split.
Qed.

Lemma X6_witness :
  exists w w',
    run Sample.props (start Sample.props) Scenario.loading = Some w /\
    step Sample.props w Unmount = Some w' /\
    observe w w' = ([onAbort], false, false, "spinner") /\
    scrollListener w' = false /\
    phase w' = Unmounted.
Proof.
  eexists _, _. split; [reflexivity |]. split; [reflexivity |].
  apply (X6_unmount Sample.props Scenario.loading); reflexivity.
Defined.

Section Listener.
Variable props : PropType.

Lemma step_listener (w : World) (i : Input) (w' : World) :
  step props w i = Some w' ->
  (scrollListener w = true -> phase w = Mounted) ->
  phase w' = Mounted \/ scrollListener w' = false.
Proof.
  unfold step. intros Hstep Hinv. revert Hstep.
  destruct (phase w) eqn:Hph;
    destruct i as [page ls | page ls | ev | st body | r | k err res |];
    try discriminate.
  - intros [= <-]. left.
    destruct w as [ph [im rq pr [st rs fl]] sl rd em].
    unfold invoke, componentDidMount, checkViewport, withThis, fetch.
    cbn -[amountLoaded isInViewport js_lt isNaN].
    destruct (isInViewport (offset props) page), rq;
      cbn -[amountLoaded isInViewport js_lt isNaN];
      try (unfold deliver, handle, handlerOf, handleLoadStart;
           destruct (lengthComputable ls));
      try (destruct (js_lt _ _ || isNaN _));
      reflexivity.
  - intros [= <-]. left. destruct (scrollListener w); [| exact Hph].
    destruct w as [ph [im rq pr [st rs fl]] sl rd em]. cbn in Hph. subst ph.
    unfold invoke, checkViewport, withThis, fetch.
    cbn -[amountLoaded isInViewport js_lt isNaN].
    destruct (isInViewport (offset props) page), rq;
      cbn -[amountLoaded isInViewport js_lt isNaN];
      try (unfold deliver, handle, handlerOf, handleLoadStart;
           destruct (lengthComputable ls));
      try (destruct (js_lt _ _ || isNaN _));
      try reflexivity; cbn; destruct fl; reflexivity.
  - destruct (inFlight _); [| discriminate]. intros [= <-]. left.
    rewrite progress_eq. exact Hph.
  - destruct (inFlight _); [| discriminate]. intros [= <-]. left.
    rewrite complete_eq. exact Hph.
  - destruct (inFlight _); [| discriminate]. intros [= <-]. left.
    rewrite fail_eq. exact Hph.
  - destruct (readers w !! k) as [b |] eqn:Hk; [| discriminate].
    intros [= <-]. left. rewrite (readEnd_eq _ _ _ _ _ Hk).
    destruct err; exact Hph.
  - intros [= <-]. right.
    destruct w as [ph [im rq pr [st rs fl]] sl rd em].
    unfold unmount, invoke, componentWillUnmount. cbn. destruct fl; reflexivity.
  - destruct (readers w !! k) as [b |] eqn:Hk; [| discriminate].
    intros [= <-]. right. rewrite (readEndUnmounted_eq _ _ _ _ _ Hk).
    destruct (scrollListener w) eqn:Hsl;
      [discriminate (Hinv eq_refl)
      | destruct err; first [exact Hsl | reflexivity]].
Qed.

(** The scroll listener is registered only while the component is mounted. *)
Lemma reachable_listener (tr : list Input) (w : World) :
  run props (start props) tr = Some w ->
  scrollListener w = true -> phase w = Mounted.
Proof.
  revert w. induction tr as [| i tr IH] using rev_ind; intros w Hrun Hsl.
  - injection Hrun as <-. discriminate.
  - rewrite run_snoc in Hrun.
    destruct (run props (start props) tr) as [w0 |]; [| discriminate].
    destruct (step_listener w0 i w Hrun (IH w0 eq_refl)) as [H | H];
      [exact H | congruence].
Qed.

End Listener.

(** X10: in a reachable world where the component listens and is
    requesting, a scroll event with the element outside the expanded
    viewport either aborts (the percentage is below [minLoaded] or NaN):
    [onAbort] is called, [isRequesting] is cleared and nothing is in
    flight; or changes nothing and the transfer continues. *)
Theorem X10_scroll_out_while_requesting (props : PropType) (tr : list Input)
    (w : World) (page : Page) (ls : ProgressEvent) :
  run props (start props) tr = Some w ->
  scrollListener w = true ->
  isRequesting (instance w) = true ->
  isInViewport (offset props) page = false ->
  option_map (observe w) (step props w (Scroll page ls))
  = Some (if js_lt (amountLoaded (instance w)) (minLoaded props)
             || isNaN (amountLoaded (instance w))
          then ([onAbort], false, false, image (instance w))
          else ([], true, true, image (instance w))).
Proof.
  intros Hrun Hsl Hreq Hout.
  destruct (reachable_requestingInv props tr w Hrun) as [Hc Hinv].
  specialize (Hinv Hreq).
  pose proof (reachable_listener props tr w Hrun Hsl) as Hph.
  unfold step. rewrite Hph, Hsl. cbn [option_map]. f_equal.
  destruct w as [ph [im rq pr [st rs fl]] sl rd em].
  cbn in Hreq, Hinv. subst rq fl.
  unfold observe, emittedSince, invoke, checkViewport, withThis.
  cbn -[amountLoaded isInViewport js_lt isNaN]. rewrite Hout.
  cbn -[amountLoaded isInViewport js_lt isNaN].
  destruct (js_lt _ _ || isNaN _); cbn.
  - rewrite drop_app_length. reflexivity.
  - rewrite drop_all. reflexivity.
Qed.

Lemma X10_witness :
  let w := invoke Sample.props noLength
             (componentDidMount Sample.props Sample.visible)
             (with_phase Mounted (start Sample.props)) in
  run Sample.props (start Sample.props) [Mount Sample.visible noLength]
    = Some w /\
  option_map (observe w) (step Sample.props w (Scroll Sample.hidden noLength))
  = Some ([onAbort], false, false, "spinner").
Proof.
  intros w. split; [reflexivity |].
  exact (X10_scroll_out_while_requesting Sample.props
           [Mount Sample.visible noLength] w Sample.hidden noLength
           eq_refl eq_refl eq_refl eq_refl).
Defined.

(** X11: in every reachable world, [isRequesting] is true only while a
    transfer is in flight. *)
Theorem X11_requesting_means_in_flight (props : PropType) (tr : list Input)
    (w : World) :
  run props (start props) tr = Some w ->
  isRequesting (instance w) = true ->
  inFlight (request (instance w)) = true.
Proof.
  intros Hrun Hreq.
  destruct (reachable_requestingInv props tr w Hrun) as [_ Hinv].
  exact (Hinv Hreq).
Qed.

Lemma X11_witness :
  exists w,
    run Sample.props (start Sample.props) Scenario.loading = Some w /\
    isRequesting (instance w) = true /\
    inFlight (request (instance w)) = true.
Proof.
  eexists. split; [reflexivity |]. split; [reflexivity |].
  apply (X11_requesting_means_in_flight Sample.props Scenario.loading);
    reflexivity.
Defined.

(** ** Retrying, mounting, handlers *)

Section Retry.
Variable props : PropType.

Lemma invoke_checkViewport_start (ls : ProgressEvent) (page : Page) (w : World) :
  isInViewport (offset props) page = true ->
  isRequesting (instance w) = false ->
  invoke props ls (checkViewport props page) w = perform props ls w XhrSend.
Proof.
  intros Hin Hreq. rewrite <- fetch_eq. unfold invoke, checkViewport, withThis.
  rewrite Hin, Hreq. reflexivity.
Qed.

(** A transfer that ends without a new image leaves the component
    mounted, listening, not requesting, and showing what it showed. *)
Lemma lifecycle_without_image (ls : ProgressEvent) (ps : list ProgressEvent)
    (e : Ending) (w : World) :
  endsWithoutImage e = true ->
  phase (lifecycle props ls ps e w) = phase w /\
  scrollListener (lifecycle props ls ps e w) = scrollListener w /\
  isRequesting (instance (lifecycle props ls ps e w)) = false /\
  image (instance (lifecycle props ls ps e w)) = image (instance w).
Proof.
  intros He. unfold lifecycle. cbv zeta.
  destruct (progressed_frame props ps (perform props ls w XhrSend))
    as (H1 & H2 & H3 & H4 & H5 & H6 & H7).
  set (w2 := progressed props ps (perform props ls w XhrSend)) in *.
  rewrite send_eq in H1, H2, H3, H4, H5, H6, H7.
  cbn in H1, H2, H3, H4, H5, H6, H7.
  destruct e as [st body err result | r |].
  - cbn in He. destruct (successful st) eqn:Hst.
    + destruct err as [name |]; [| discriminate].
      rewrite (readEnd_eq _ _ _ _ (blobOf props body)).
      2:{ rewrite complete_eq, Hst. cbn [readers]. rewrite H6.
          apply list_lookup_middle. reflexivity. }
      rewrite complete_eq. cbn. auto.
    + unfold readEnd. rewrite complete_eq, Hst. cbn [readers]. rewrite H6.
      rewrite lookup_ge_None_2 by reflexivity. cbn. auto.
  - rewrite fail_eq. cbn. auto.
  - rewrite abort_eq, H4. cbn. auto.
Qed.

End Retry.

(** X7: after a transfer that ended without a new image (transport
    error, abort, status outside 200..299, or failed conversion) a
    mounted, listening component shows the image it showed before, and
    the next scroll event with the element in view starts a new transfer. *)
Theorem X7_retry_after_failure (props : PropType) (ls : ProgressEvent)
    (ps : list ProgressEvent) (e : Ending) (w : World) (page : Page)
    (ls' : ProgressEvent) :
  phase w = Mounted ->
  scrollListener w = true ->
  endsWithoutImage e = true ->
  isInViewport (offset props) page = true ->
  option_map (observe (lifecycle props ls ps e w))
    (step props (lifecycle props ls ps e w) (Scroll page ls'))
  = Some ([onLoadStart], true, true, image (instance w)).
Proof.
  intros Hph Hsl He Hin.
  destruct (lifecycle_without_image props ls ps e w He) as (H1 & H2 & H3 & H4).
  set (w1 := lifecycle props ls ps e w) in *.
  unfold step. rewrite H1, Hph, H2, Hsl. cbn [option_map]. f_equal.
  rewrite (invoke_checkViewport_start props ls' page w1 Hin H3), send_eq.
  unfold observe. cbn [instance isRequesting request inFlight sent image].
  rewrite H4. f_equal. f_equal. f_equal.
  apply emittedSince_app. reflexivity.
Qed.

Lemma X7_witness :
  option_map
    (observe (lifecycle Sample.props noLength [Sample.known 30 100]
                (Loads 200 [] (Some "NotReadableError") "") Sample.mounted))
    (step Sample.props
       (lifecycle Sample.props noLength [Sample.known 30 100]
          (Loads 200 [] (Some "NotReadableError") "") Sample.mounted)
       (Scroll Sample.visible noLength))
  = Some ([onLoadStart], true, true, "spinner").
Proof.
  exact (X7_retry_after_failure Sample.props noLength [Sample.known 30 100]
           (Loads 200 [] (Some "NotReadableError") "") Sample.mounted
           Sample.visible noLength eq_refl eq_refl eq_refl eq_refl).
Defined.

(** X8: mounting a fresh component calls [onLayout], registers the
    scroll listener and starts a transfer, calling [onLoadStart], exactly
    when the element is in the expanded viewport; the image is the
    default source. *)
Theorem X8_mount (props : PropType) (page : Page) (ls : ProgressEvent) :
  option_map
    (fun w => (phase w, emitted w, scrollListener w, isRequesting (instance w),
               inFlight (request (instance w)), image (instance w)))
    (step props (start props) (Mount page ls))
  = Some (Mounted,
          onLayout :: (if isInViewport (offset props) page
                       then [onLoadStart] else []),
          true,
          isInViewport (offset props) page,
          isInViewport (offset props) page,
          defaultSource props).
Proof.
  unfold step, start, invoke, componentDidMount, checkViewport, withThis, fetch.
  cbn -[isInViewport]. destruct (isInViewport (offset props) page); cbn.
  - unfold deliver, handle, handlerOf, handleLoadStart.
    destruct (lengthComputable ls); reflexivity.
  - reflexivity.
Qed.

(** X9: no handler of a transport event and no continuation of the
    reader's promise calls [open], [send] or [abort]. *)
Theorem X9_handlers_leave_the_transport_alone (props : PropType)
    (this : Image) :
  (forall e, existsb isTransportCall (snd (handlerOf props e this)) = false) /\
  (forall reader, existsb isTransportCall (snd (settle reader this)) = false).
Proof.
  split.
  - intros [ev | ev | | | | r]; cbn.
    + unfold handleLoadStart. destruct (lengthComputable ev); reflexivity.
    + unfold handleProgress. destruct (lengthComputable ev); reflexivity.
    + reflexivity.
    + unfold handleLoadEnd, withThis. destruct (_ && _); reflexivity.
    + reflexivity.
    + reflexivity.
  - intros [f [e |] r]; unfold settle, onReadEnd; cbn.
    + reflexivity.
    + unfold handleLoadEnd_then, setState, withThis. cbn.
      destruct (String.eqb r (image this)); reflexivity.
Qed.

(** ** Rendering, continued *)

(** X12: [imgProps] is contained in the props, applying it twice is
    applying it once, and its keys are the keys of the props that are not
    own props. *)
Theorem X12_imgProps_restriction (props : gmap string JsValue) :
  imgProps props ⊆ props /\
  imgProps (imgProps props) = imgProps props /\
  (forall k, is_Some (imgProps props !! k)
             <-> is_Some (props !! k) /\ k ∉ ownProps).
Proof.
  split; [| split].
  - apply map_subseteq_spec. intros k v. rewrite imgProps_lookup.
    destruct (decide (k ∈ ownProps)); [discriminate | auto].
  - apply map_eq. intros k. rewrite !imgProps_lookup.
    destruct (decide (k ∈ ownProps)); reflexivity.
  - intros k. rewrite imgProps_lookup.
    destruct (decide (k ∈ ownProps)) as [Hin | Hout].
    + split; [intros [v Hv]; discriminate | intros [_ H]; contradiction].
    + tauto.
Qed.

(** X13: the rendered element is an [img] whose [src] is always the
    image of the state, also when the props carry a [src]; own props
    never reach it; every other prop is passed as given. *)
Theorem X13_render_attributes (props : gmap string JsValue) (this : Image)
    (k : string) :
  tag (render props this) = "img" /\
  attributes (render props this) !! k
  = if decide (k = "src") then Some (JsString (image this))
    else if decide (k ∈ ownProps) then None
    else props !! k.
Proof.
  split; [reflexivity |]. unfold render. cbn [attributes].
  destruct (decide (k = "src")) as [-> | Hne].
  - apply lookup_insert_eq.
  - rewrite lookup_insert_ne by congruence. apply imgProps_lookup.
Qed.
